(** * Solar water heater simulation: a shallow embedding of [main.py]

    The simulator keeps three temperatures (pipe, panel outlet, tank outlet)
    and advances them with a fixed time step.

    The file holds two readings of the source.

    - Module [Py] is the program as Python runs it.  A number is an [int]
      (unbounded, exact) or a [float] (IEEE 754 binary64, [spec_float] of the
      Standard Library, rounded to nearest, ties to even).  [+], [-], [*] on
      two [int]s are exact; a mixed operation converts the [int], which raises
      [OverflowError] when it is too large; [/] raises [ZeroDivisionError] on
      a zero divisor; [**] on a [float], [math.sin] and [math.exp] are what the
      C library gives and raise [OverflowError] or [ValueError].  The C library
      is a parameter ([Py.Platform]): every theorem about [Py] holds for each
      library.  [Py.libm] is one such library, the correctly rounded
      functions; it is used in the examples.
    - The definitions outside [Py] read every number as a real number and
      keep only [ZeroDivisionError].  Rounding, overflow and NaN are outside
      that reading, so it says what the formulas mean, not what the program
      returns; it is used only for statements about which attributes a run
      touches, where no arithmetic is involved.

    Conventions common to both.
    - A method call [obj.m(args)] that mutates [obj] becomes a function from
      the object before the call to the pair (outcome, object after the call).
      When an exception is raised the object is the one the call leaves: the
      assignments made before the failing expression are kept.
    - Expressions are evaluated in Python's order, left to right, so that the
      first exception is the one Python raises.
    - The module-level names read by the methods ([solar_rad], [cycle],
      [sigma], [T_amb], [dt]) are the fields of [Config.t]; [time], which the
      loop rebinds in every iteration, is passed next to it.
    - [time_array] (line 179) and the plotting (lines 199 to 206) are outside
      [Py]: the loop does not read them. *)

From Stdlib Require Import Reals Lra Lia ZArith List Bool.
From Stdlib Require Import Machin.
From Stdlib Require Import Floats.SpecFloat.
Import ListNotations.

Open Scope R_scope.

(** [range(n)]: empty when [n <= 0]. *)
Definition range (n : Z) : list Z := map Z.of_nat (seq 0 (Z.to_nat n)).

(** * The program on Python numbers *)

Module Py.

Local Open Scope Z_scope.

(** ** Outcomes of a call *)

Inductive exn : Set := ZeroDivisionError | OverflowError | ValueError.

Inductive result (A : Type) : Type :=
| Ok (a : A)
| Raise (e : exn).

Arguments Ok {A} a.
Arguments Raise {A} e.

Definition bind {A B : Type} (r : result A) (k : A -> result B) : result B :=
  match r with
  | Ok a => k a
  | Raise e => Raise e
  end.

Notation "x <- r ;; k" := (bind r (fun x => k))
  (at level 61, r at next level, right associativity).

(** ** Numbers *)

Inductive num : Set :=
| Int (z : Z)
| Float (f : spec_float).

Definition prec : Z := 53.
Definition emax : Z := 1024.

(** [float(z)] for an [int]: the nearest double, [OverflowError] when the
    [int] is too large. *)
Definition float_of_int (z : Z) : result spec_float :=
  match binary_normalize prec emax z 0 false with
  | S754_infinity _ => Raise OverflowError
  | f => Ok f
  end.

Definition to_float (x : num) : result spec_float :=
  match x with
  | Int z => float_of_int z
  | Float f => Ok f
  end.

(** [x op y] for [+], [-], [*]: exact on two [int]s; otherwise both operands
    are converted to [float], the left one first, and the operation is the
    one of binary64, which never raises. *)
Definition arith (zop : Z -> Z -> Z)
    (fop : spec_float -> spec_float -> spec_float) (x y : num) : result num :=
  match x, y with
  | Int a, Int b => Ok (Int (zop a b))
  | _, _ =>
      a <- to_float x ;;
      b <- to_float y ;;
      Ok (Float (fop a b))
  end.

Definition add : num -> num -> result num := arith Z.add (SFadd prec emax).
Definition sub : num -> num -> result num := arith Z.sub (SFsub prec emax).
Definition mul : num -> num -> result num := arith Z.mul (SFmul prec emax).

Definition is_zero (f : spec_float) : bool :=
  match f with
  | S754_zero _ => true
  | _ => false
  end.

(** An [int] as a sign and an integer mantissa, not rounded. *)
Definition int_mantissa (z : Z) : spec_float :=
  match z with
  | Z0 => S754_zero false
  | Zpos p => S754_finite false p 0
  | Zneg p => S754_finite true p 0
  end.

(** [x / y], true division.  Two [int]s give the correctly rounded quotient
    of the integers, [OverflowError] when it is too large; otherwise both
    operands are converted and a zero divisor of either sign raises. *)
Definition truediv (x y : num) : result num :=
  match x, y with
  | Int a, Int b =>
      if Z.eqb b 0 then Raise ZeroDivisionError
      else
        match SFdiv prec emax (int_mantissa a) (int_mantissa b) with
        | S754_infinity _ => Raise OverflowError
        | f => Ok (Float f)
        end
  | _, _ =>
      a <- to_float x ;;
      b <- to_float y ;;
      if is_zero b then Raise ZeroDivisionError
      else Ok (Float (SFdiv prec emax a b))
  end.

(** [-x] *)
Definition neg (x : num) : num :=
  match x with
  | Int a => Int (- a)
  | Float f => Float (SFopp f)
  end.

(** [a > 0] *)
Definition gt_zero (a : num) : bool :=
  match a with
  | Int z => Z.ltb 0 z
  | Float f => SFltb (S754_zero false) f
  end.

(** ** The C library

    [float.__pow__] with an integer exponent, [math.sin] and [math.exp] on a
    [float]: each returns a double or fails with a range error
    ([OverflowError]) or a domain error ([ValueError]). *)

Inductive math_error : Set := RangeError | DomainError.

Inductive c_result : Set :=
| C_ok (f : spec_float)
| C_error (e : math_error).

Record Platform : Type := mkPlatform {
  float_pow : spec_float -> Z -> c_result;
  libm_sin : spec_float -> c_result;
  libm_exp : spec_float -> c_result
}.

Definition of_c (r : c_result) : result num :=
  match r with
  | C_ok f => Ok (Float f)
  | C_error RangeError => Raise OverflowError
  | C_error DomainError => Raise ValueError
  end.

(** [x ** n] for a literal exponent [n > 0]: exact on an [int]. *)
Definition pow (pf : Platform) (x : num) (n : Z) : result num :=
  match x with
  | Int a => Ok (Int (a ^ n))
  | Float f => of_c (float_pow pf f n)
  end.

Definition math_sin (pf : Platform) (x : num) : result num :=
  f <- to_float x ;;
  of_c (libm_sin pf f).

Definition math_exp (pf : Platform) (x : num) : result num :=
  f <- to_float x ;;
  of_c (libm_exp pf f).

(** [math.pi = 0x1.921fb54442d18p+1] *)
Definition math_pi : spec_float := S754_finite false 7074237752028440 (-51).

(** The literal [0.2] *)
Definition lit_0_2 : spec_float := S754_finite false 7205759403792794 (-55).

(** ** Helper functions *)

Definition Kelvin (T : num) : result num := add T (Int 273).

Definition get_solar_rad (pf : Platform) (solar_rad time : num) (cycle : bool)
    : result num :=
  if cycle then
    t1 <- mul (Int 2) (Float math_pi) ;;
    t2 <- mul t1 time ;;
    t3 <- truediv t2 (Int 86400) ;;
    a <- math_sin pf t3 ;;
    if gt_zero a then mul solar_rad a else Ok (Int 0)
  else Ok solar_rad.

(** ** Module-level configuration *)

Module Config.

Record t : Type := mk {
  cycle : bool;
  dt : num;
  steps : Z;
  T_amb : num;
  solar_rad : num;
  sigma : num
}.

(** The literal [5.67e-8] *)
Definition lit_sigma : spec_float := S754_finite false 8568261746518684 (-77).

(** The values bound under [if __name__ == "__main__"]. *)
Definition default : t :=
  {| cycle := false; dt := Int 1; steps := 500000; T_amb := Int 25;
     solar_rad := Int 1000; sigma := Float lit_sigma |}.

End Config.

(** ** Solar panel *)

Module SolarPanel.

Record t : Type := mk {
  T : num;
  effi : num;
  pipe_len : num;
  pipe_dia : num;
  pipe_area : num;
  panel_area : num;
  panel_thickness : num;
  C : num;
  emmi : num
}.

(** [SolarPanel.__init__]; line 75 can raise, and then no object is
    produced. *)
Definition init (pf : Platform)
    (T effi emmi pipe_len pipe_dia panel_area panel_thickness C : num) : result t :=
  d2 <- pow pf pipe_dia 2 ;;
  a1 <- mul (Float math_pi) d2 ;;
  pa <- truediv a1 (Int 4) ;;
  Ok {| T := T;
        effi := effi;
        pipe_len := pipe_len;
        pipe_dia := pipe_dia;
        pipe_area := pa;
        panel_area := panel_area;
        panel_thickness := panel_thickness;
        C := C;
        emmi := emmi |}.

(** The literals [0.5], [0.4], [0.025] and [0.06] *)
Definition lit_0_5 : spec_float := S754_finite false 4503599627370496 (-53).
Definition lit_0_4 : spec_float := S754_finite false 7205759403792794 (-54).
Definition lit_0_025 : spec_float := S754_finite false 7205759403792794 (-58).
Definition lit_0_06 : spec_float := S754_finite false 8646911284551352 (-57).

(** [SolarPanel()] with the default arguments. *)
Definition default (pf : Platform) : result t :=
  init pf (Int 25) (Float lit_0_5) (Float lit_0_4) (Int 5) (Float lit_0_025)
    (Int 1) (Float lit_0_06) (Int 500).

(** [self.T = v] *)
Definition set_T (self : t) (v : num) : t :=
  {| T := v;
     effi := effi self;
     pipe_len := pipe_len self;
     pipe_dia := pipe_dia self;
     pipe_area := pipe_area self;
     panel_area := panel_area self;
     panel_thickness := panel_thickness self;
     C := C self;
     emmi := emmi self |}.

(** Line 91: [radiation_in]. *)
Definition radiation_in (pf : Platform) (g : Config.t) (time : num) (self : t)
    : result num :=
  flux <- get_solar_rad pf (Config.solar_rad g) time (Config.cycle g) ;;
  t1 <- mul flux (effi self) ;;
  mul t1 (panel_area self).

(** [(Kelvin(x))**4] *)
Definition Kelvin4 (pf : Platform) (x : num) : result num :=
  k <- Kelvin x ;;
  pow pf k 4.

(** Line 94: [radiation_loss]. *)
Definition radiation_loss (pf : Platform) (g : Config.t) (self : t) : result num :=
  t1 <- mul (Config.sigma g) (panel_area self) ;;
  t2 <- mul t1 (emmi self) ;;
  p1 <- Kelvin4 pf (T self) ;;
  p2 <- Kelvin4 pf (Config.T_amb g) ;;
  d <- sub p1 p2 ;;
  t3 <- mul t2 d ;;
  mul t3 (Config.dt g).

(** Lines 91 to 96: [panel_available_heat]. *)
Definition panel_available_heat (pf : Platform) (g : Config.t) (time : num)
    (self : t) : result num :=
  radiation_in <- radiation_in pf g time self ;;
  radiation_loss <- radiation_loss pf g self ;;
  convection_loss <- mul (Float lit_0_2) radiation_loss ;;
  loss <- add radiation_loss convection_loss ;;
  sub radiation_in loss.

(** Line 99: [panel_mass]. *)
Definition panel_mass (self : t) : result num :=
  t1 <- mul (panel_thickness self) (panel_area self) ;;
  mul t1 (Int 7800).

(** [self.C * panel_mass], the divisor of line 100. *)
Definition divisor (self : t) : result num :=
  panel_mass <- panel_mass self ;;
  mul (C self) panel_mass.

(** Lines 91 to 100, the value assigned to [self.T]. *)
Definition new_T (pf : Platform) (g : Config.t) (time : num) (self : t)
    : result num :=
  panel_available_heat <- panel_available_heat pf g time self ;;
  d <- divisor self ;;
  q <- truediv panel_available_heat d ;;
  add (T self) q.

(** [SolarPanel.UpdateTemp]; when an operation raises, [self.T] has not been
    assigned. *)
Definition UpdateTemp (pf : Platform) (g : Config.t) (time : num) (self : t)
    : result num * t :=
  match new_T pf g time self with
  | Raise e => (Raise e, self)
  | Ok v =>
      let self' := set_T self v in
      (Ok (T self'), self')
  end.

End SolarPanel.

(** ** Fluid *)

Module Fluid.

Record t : Type := mk {
  rho : num;
  velocity : num;
  C : num;
  ht_coeff : num;
  T_panel_out : num;
  T_tank_out : num;
  alpha : num;
  len : num;
  pipe_area : num;
  tank_volume : num
}.

(** [self.C * self.rho * self.velocity * solarpanel.pipe_dia], the divisor of
    line 129. *)
Definition alpha_divisor (C rho velocity pipe_dia : num) : result num :=
  d1 <- mul C rho ;;
  d2 <- mul d1 velocity ;;
  mul d2 pipe_dia.

(** [Fluid.__init__]; the only statement that can raise is line 129, and then
    no object is produced. *)
Definition init (solarpanel : SolarPanel.t)
    (tank_volume T_panel_out T_tank_out C rho velocity ht_coeff : num) : result t :=
  n <- mul (Int 4) ht_coeff ;;
  d <- alpha_divisor C rho velocity (SolarPanel.pipe_dia solarpanel) ;;
  a <- truediv n d ;;
  Ok {| rho := rho;
        velocity := velocity;
        C := C;
        ht_coeff := ht_coeff;
        T_panel_out := T_panel_out;
        T_tank_out := T_tank_out;
        alpha := a;
        len := SolarPanel.pipe_len solarpanel;
        pipe_area := SolarPanel.pipe_area solarpanel;
        tank_volume := tank_volume |}.

(** The literal [0.05] *)
Definition lit_0_05 : spec_float := S754_finite false 7205759403792794 (-57).

(** [Fluid(solarpanel=...)] with the default arguments. *)
Definition default (solarpanel : SolarPanel.t) : result t :=
  init solarpanel (Int 2) (Int 25) (Int 25) (Int 4180) (Int 1000)
    (Float lit_0_05) (Int 300).

(** [self.T_panel_out = v] *)
Definition set_T_panel_out (self : t) (v : num) : t :=
  {| rho := rho self;
     velocity := velocity self;
     C := C self;
     ht_coeff := ht_coeff self;
     T_panel_out := v;
     T_tank_out := T_tank_out self;
     alpha := alpha self;
     len := len self;
     pipe_area := pipe_area self;
     tank_volume := tank_volume self |}.

(** [self.T_tank_out = v] *)
Definition set_T_tank_out (self : t) (v : num) : t :=
  {| rho := rho self;
     velocity := velocity self;
     C := C self;
     ht_coeff := ht_coeff self;
     T_panel_out := T_panel_out self;
     T_tank_out := v;
     alpha := alpha self;
     len := len self;
     pipe_area := pipe_area self;
     tank_volume := tank_volume self |}.

(** [math.exp(-self.alpha * self.len)] *)
Definition exp_factor (pf : Platform) (self : t) : result num :=
  x <- mul (neg (alpha self)) (len self) ;;
  math_exp pf x.

(** Line 146, the value assigned to [self.T_panel_out]. *)
Definition new_T_panel_out (pf : Platform) (self : t) (pipe_temp_updated : num)
    : result num :=
  d <- sub (T_tank_out self) pipe_temp_updated ;;
  e <- exp_factor pf self ;;
  t1 <- mul d e ;;
  add pipe_temp_updated t1.

(** Line 149: [m]. *)
Definition m (g : Config.t) (self : t) : result num :=
  t1 <- mul (rho self) (pipe_area self) ;;
  t2 <- mul t1 (velocity self) ;;
  mul t2 (Config.dt g).

(** Line 150: [M]. *)
Definition M (self : t) : result num :=
  mul (tank_volume self) (rho self).

(** Line 151 for given [m] and [M], the value assigned to
    [self.T_tank_out]. *)
Definition mix (m M T_panel_out T_tank_out : num) : result num :=
  a <- mul m T_panel_out ;;
  b <- mul M T_tank_out ;;
  n <- add a b ;;
  d <- add m M ;;
  truediv n d.

(** Lines 149 to 151. *)
Definition new_T_tank_out (g : Config.t) (self : t) : result num :=
  m <- m g self ;;
  M <- M self ;;
  mix m M (T_panel_out self) (T_tank_out self).

(** [Fluid.UpdateTemp]; [self.T_panel_out] is assigned before lines 149 to
    151 are evaluated, so it keeps its new value when they raise. *)
Definition UpdateTemp (pf : Platform) (g : Config.t) (self : t)
    (pipe_temp_updated : num) : result (num * num) * t :=
  match new_T_panel_out pf self pipe_temp_updated with
  | Raise e => (Raise e, self)
  | Ok po =>
      let self1 := set_T_panel_out self po in
      match new_T_tank_out g self1 with
      | Raise e => (Raise e, self1)
      | Ok to =>
          let self2 := set_T_tank_out self1 to in
          (Ok (T_panel_out self2, T_tank_out self2), self2)
      end
  end.

End Fluid.

(** ** Main loop *)

(** What the loop reads and writes: the two objects and the three lists. *)
Record MainState : Type := mkMainState {
  Panel : SolarPanel.t;
  Water : Fluid.t;
  tank_outlet_temps : list num;
  panel_outlet_temps : list num;
  pipe_temps : list num
}.

(** The state in which the [for] statement is entered. *)
Definition initial (Panel0 : SolarPanel.t) (Water0 : Fluid.t) : MainState :=
  {| Panel := Panel0; Water := Water0;
     tank_outlet_temps := []; panel_outlet_temps := []; pipe_temps := [] |}.

(** One iteration of the loop for index [i] (lines 186 to 197).  An exception
    leaves the loop with the objects as they were when it was raised and
    nothing appended. *)
Definition loop_body (pf : Platform) (g : Config.t) (i : Z) (st : MainState)
    : result unit * MainState :=
  match mul (Config.dt g) (Int i) with
  | Raise e => (Raise e, st)
  | Ok time =>
      match SolarPanel.UpdateTemp pf g time (Panel st) with
      | (Raise e, Panel') =>
          (Raise e,
           {| Panel := Panel'; Water := Water st;
              tank_outlet_temps := tank_outlet_temps st;
              panel_outlet_temps := panel_outlet_temps st;
              pipe_temps := pipe_temps st |})
      | (Ok pipe_temp_updated, Panel') =>
          match Fluid.UpdateTemp pf g (Water st) pipe_temp_updated with
          | (Raise e, Water') =>
              (Raise e,
               {| Panel := Panel'; Water := Water';
                  tank_outlet_temps := tank_outlet_temps st;
                  panel_outlet_temps := panel_outlet_temps st;
                  pipe_temps := pipe_temps st |})
          | (Ok (panel_out_temp_updated, tank_out_temp_updated), Water') =>
              (Ok tt,
               {| Panel := Panel'; Water := Water';
                  tank_outlet_temps := tank_outlet_temps st ++ [tank_out_temp_updated];
                  panel_outlet_temps := panel_outlet_temps st ++ [panel_out_temp_updated];
                  pipe_temps := pipe_temps st ++ [pipe_temp_updated] |})
          end
      end
  end.

(** [for i in l: body]; the first exception ends the loop. *)
Fixpoint for_in (body : Z -> MainState -> result unit * MainState)
    (l : list Z) (st : MainState) : result unit * MainState :=
  match l with
  | [] => (Ok tt, st)
  | i :: l' =>
      match body i st with
      | (Ok _, st') => for_in body l' st'
      | (Raise e, st') => (Raise e, st')
      end
  end.

(** Lines 180 to 197: the list initialisations and the [for] statement, for
    the objects [Panel0] and [Water0] built just before. *)
Definition main_loop (pf : Platform) (g : Config.t)
    (Panel0 : SolarPanel.t) (Water0 : Fluid.t) : result unit * MainState :=
  for_in (loop_body pf g) (range (Config.steps g)) (initial Panel0 Water0).

(** The state after the first [n] iterations have been attempted. *)
Definition state_after (pf : Platform) (g : Config.t)
    (Panel0 : SolarPanel.t) (Water0 : Fluid.t) (n : nat) : result unit * MainState :=
  for_in (loop_body pf g) (range (Z.of_nat n)) (initial Panel0 Water0).

(** ** A C library: the correctly rounded functions

    [Libm.pow] is the exact power, rounded.  [Libm.exp] and [Libm.sin] compute
    in fixed point with [K] bits after the binary point and round the result,
    which is the correctly rounded value unless the exact value lies within
    about [2^-K] of a point where rounding changes.  The libraries in use
    agree with these functions except for the last bit on rare arguments. *)

Module Libm.

(** Working precision, in bits after the binary point. *)
Definition K : Z := 320.

(** [sum_i (-1)^i * t / (n2^i * (k + 2i))], the terms truncated, [t] the
    numerator of the first term. *)
Fixpoint atan_series (fuel : nat) (n2 t k : Z) (minus : bool) (acc : Z) : Z :=
  match fuel with
  | O => acc
  | S fuel' =>
      if Z.eqb t 0 then acc
      else atan_series fuel' n2 (t / n2) (k + 2) (negb minus)
             (if minus then acc - t / k else acc + t / k)
  end.

(** [atan (1/n) * 2^P] *)
Definition atan_inv (P n : Z) : Z :=
  atan_series (Z.to_nat P) (n * n) (2 ^ P / n) 1 false 0.

(** [pi * 2^P], by Machin's formula, computed with 32 more bits. *)
Definition pi_fix (P : Z) : Z :=
  (16 * atan_inv (P + 32) 5 - 4 * atan_inv (P + 32) 239) / 2 ^ 32.

(** [sum_{j = i}^{i + fuel - 1} 2^P / (j * 2^j)] *)
Fixpoint ln2_series (fuel : nat) (P i : Z) (acc : Z) : Z :=
  match fuel with
  | O => acc
  | S fuel' => ln2_series fuel' P (i + 1) (acc + 2 ^ (P - i) / i)
  end.

(** [ln 2 * 2^P], computed with 32 more bits. *)
Definition ln2_fix (P : Z) : Z :=
  ln2_series (Z.to_nat (P + 32)) (P + 32) 1 0 / 2 ^ 32.

(** [sum_{i >= k} r^i / i!] at scale [2^P], [t] the term of index [k - 1]. *)
Fixpoint exp_series (fuel : nat) (P r t k : Z) (acc : Z) : Z :=
  match fuel with
  | O => acc
  | S fuel' =>
      if Z.eqb t 0 then acc
      else
        let t' := t * r / 2 ^ P / k in
        exp_series fuel' P r t' (k + 1) (acc + t')
  end.

(** [exp r * 2^P] for [r] at scale [2^P] *)
Definition exp_fix (P r : Z) : Z := exp_series 1000 P r (2 ^ P) 1 (2 ^ P).

(** [sum_i (-1)^i r^(2i+1) / (2i+1)!] at scale [2^P], [t] a term and [k] the
    index after it. *)
Fixpoint sin_series (fuel : nat) (P r2 t k : Z) (acc : Z) : Z :=
  match fuel with
  | O => acc
  | S fuel' =>
      if Z.eqb t 0 then acc
      else
        let t' := - (t * r2 / 2 ^ P / (k * (k + 1))) in
        sin_series fuel' P r2 t' (k + 2) (acc + t')
  end.

(** [sin r * 2^P] for [r] at scale [2^P] *)
Definition sin_fix (P r : Z) : Z := sin_series 2000 P (r * r / 2 ^ P) r 2 r.

(** [1.0] *)
Definition one : spec_float := S754_finite false 4503599627370496 (-52).

(** [exp]: [1.0] below [2^-55] in magnitude, where [exp x] rounds to it;
    overflow and underflow decided on the rounded result. *)
Definition exp (x : spec_float) : c_result :=
  match x with
  | S754_nan => C_ok S754_nan
  | S754_infinity false => C_ok (S754_infinity false)
  | S754_infinity true => C_ok (S754_zero false)
  | S754_zero _ => C_ok one
  | S754_finite s m e =>
      let d := Zpos (digits2_pos m) in
      if Z.leb (e + d) (-55) then C_ok one
      else if Z.leb 12 (e + d) then
        if s then C_ok (S754_zero false) else C_error RangeError
      else
        let X := cond_Zopp s (Z.shiftl (Zpos m) (e + K)) in
        let L := ln2_fix K in
        let k := (2 * X + L) / (2 * L) in
        let r := X - k * L in
        match binary_normalize prec emax (exp_fix K r) (k - K) false with
        | S754_infinity _ => C_error RangeError
        | f => C_ok f
        end
  end.

(** [sin]: the argument itself below [2^-26] in magnitude, where [sin x]
    rounds to it; otherwise the argument is reduced modulo [2 pi] with as
    many bits of [pi] as its magnitude asks for. *)
Definition sin (x : spec_float) : c_result :=
  match x with
  | S754_nan => C_ok S754_nan
  | S754_infinity _ => C_error DomainError
  | S754_zero _ => C_ok x
  | S754_finite s m e =>
      let d := Zpos (digits2_pos m) in
      if Z.leb (e + d) (-26) then C_ok x
      else
        let P := K + Z.max 0 (e + d) in
        let X := Z.shiftl (Zpos m) (e + P) in
        let TP := 2 * pi_fix P in
        let r0 := X mod TP in
        let r := if Z.ltb TP (2 * r0) then r0 - TP else r0 in
        C_ok (binary_normalize prec emax (cond_Zopp s (sin_fix P r)) (- P) false)
  end.

(** [pow(x, n)] for an integer [n > 0] *)
Definition pow (x : spec_float) (n : Z) : c_result :=
  match x with
  | S754_nan => C_ok S754_nan
  | S754_infinity s => C_ok (S754_infinity (s && Z.odd n))
  | S754_zero s => C_ok (S754_zero (s && Z.odd n))
  | S754_finite s m e =>
      match binary_normalize prec emax
              (cond_Zopp (s && Z.odd n) (Zpos m ^ n)) (e * n) false with
      | S754_infinity _ => C_error RangeError
      | f => C_ok f
      end
  end.

End Libm.

Definition libm : Platform :=
  {| float_pow := Libm.pow; libm_sin := Libm.sin; libm_exp := Libm.exp |}.

(** ** The real number that a number stands for *)

Definition to_R (f : spec_float) : R :=
  match f with
  | S754_finite s m e =>
      ((if s then -1 else 1) * (IZR (Zpos m) * powerRZ 2 e))%R
  | _ => 0%R
  end.

Definition val (x : num) : R :=
  match x with
  | Int z => IZR z
  | Float f => to_R f
  end.

(** Neither an infinity nor a NaN. *)
Definition is_finite (x : num) : bool :=
  match x with
  | Int _ => true
  | Float (S754_finite _ _ _) => true
  | Float (S754_zero _) => true
  | Float _ => false
  end.

(** [x == 0] *)
Definition num_is_zero (x : num) : bool :=
  match x with
  | Int z => Z.eqb z 0
  | Float f => is_zero f
  end.

(** The divisor [y], converted to [float], is a zero of either sign. *)
Definition zero_as_float (y : num) : Prop :=
  exists b, to_float y = Ok b /\ is_zero b = true.

Definition is_int (x : num) : bool :=
  match x with
  | Int _ => true
  | Float _ => false
  end.

(** The outcome [r] of an operation on [x] and [y] is the finite number [z],
    and [z] is the result of the operation [op] on real numbers: nothing was
    rounded. *)
Definition exact (op : R -> R -> R) (x y : num) (r : result num) (z : num) : Prop :=
  r = Ok z /\ is_finite z = true /\ val z = op (val x) (val y).

(** Line 151 is evaluated without rounding error: each of the five
    operations returns a finite number that is its exact result. *)
Definition mix_is_exact (m M T_panel_out T_tank_out : num) : Prop :=
  exists a b n d q,
    exact Rmult m T_panel_out (mul m T_panel_out) a
    /\ exact Rmult M T_tank_out (mul M T_tank_out) b
    /\ exact Rplus a b (add a b) n
    /\ exact Rplus m M (add m M) d
    /\ exact Rdiv n d (truediv n d) q.

(** Line 146 is evaluated without rounding error, [e] being what [math.exp]
    returned. *)
Definition approach_is_exact (pipe_temp_updated T_tank_out e : num) : Prop :=
  exists d t po,
    exact Rminus T_tank_out pipe_temp_updated (sub T_tank_out pipe_temp_updated) d
    /\ exact Rmult d e (mul d e) t
    /\ exact Rplus pipe_temp_updated t (add pipe_temp_updated t) po.

(** The closed form of the panel update on real numbers, for the incident
    flux [flux]. *)
Definition closed_form (g : Config.t) (flux : R) (p : SolarPanel.t) : R :=
  (val (SolarPanel.T p)
   + (flux * val (SolarPanel.effi p) * val (SolarPanel.panel_area p)
      - 1.2 * val (Config.sigma g) * val (SolarPanel.panel_area p)
        * val (SolarPanel.emmi p)
        * ((val (SolarPanel.T p) + 273) ^ 4 - (val (Config.T_amb g) + 273) ^ 4)
        * val (Config.dt g))
     / (val (SolarPanel.C p) * val (SolarPanel.panel_thickness p)
        * val (SolarPanel.panel_area p) * 7800))%R.

(** ** The objects of the examples *)

(** [Panel = SolarPanel()] *)
Definition default_Panel : SolarPanel.t :=
  {| SolarPanel.T := Int 25;
     SolarPanel.effi := Float SolarPanel.lit_0_5;
     SolarPanel.pipe_len := Int 5;
     SolarPanel.pipe_dia := Float SolarPanel.lit_0_025;
     SolarPanel.pipe_area := Float (S754_finite false 4527512161298202 (-63));
     SolarPanel.panel_area := Int 1;
     SolarPanel.panel_thickness := Float SolarPanel.lit_0_06;
     SolarPanel.C := Int 500;
     SolarPanel.emmi := Float SolarPanel.lit_0_4 |}.

(** [SolarPanel(T=T, emmi=emmi, panel_area=panel_area, C=C)] *)
Definition Panel_with (T emmi panel_area C : num) : SolarPanel.t :=
  {| SolarPanel.T := T;
     SolarPanel.effi := Float SolarPanel.lit_0_5;
     SolarPanel.pipe_len := Int 5;
     SolarPanel.pipe_dia := Float SolarPanel.lit_0_025;
     SolarPanel.pipe_area := Float (S754_finite false 4527512161298202 (-63));
     SolarPanel.panel_area := panel_area;
     SolarPanel.panel_thickness := Float SolarPanel.lit_0_06;
     SolarPanel.C := C;
     SolarPanel.emmi := emmi |}.

(** [Water = Fluid(solarpanel=Panel)] *)
Definition default_Water : Fluid.t :=
  {| Fluid.rho := Int 1000;
     Fluid.velocity := Float Fluid.lit_0_05;
     Fluid.C := Int 4180;
     Fluid.ht_coeff := Int 300;
     Fluid.T_panel_out := Int 25;
     Fluid.T_tank_out := Int 25;
     Fluid.alpha := Float (S754_finite false 8274556253159189 (-55));
     Fluid.len := Int 5;
     Fluid.pipe_area := Float (S754_finite false 4527512161298202 (-63));
     Fluid.tank_volume := Int 2 |}.

(** A fluid with [alpha = 0x1.62e42fefa39efp-1] (the double next to [ln 2]),
    a pipe of length 1 and of cross-section 1, a tank of volume 3 at 16
    degrees. *)
Definition halving_Water : Fluid.t :=
  {| Fluid.rho := Int 1;
     Fluid.velocity := Int 1;
     Fluid.C := Int 4;
     Fluid.ht_coeff := Float (S754_finite false 6243314768165359 (-53));
     Fluid.T_panel_out := Int 16;
     Fluid.T_tank_out := Int 16;
     Fluid.alpha := Float (S754_finite false 6243314768165359 (-53));
     Fluid.len := Int 1;
     Fluid.pipe_area := Int 1;
     Fluid.tank_volume := Int 3 |}.

(** The literals [26.7], [0.7], [-1e-6], [1e-200], [1e200], [1e-77] and
    [1e308] *)
Definition lit_26_7 : spec_float := S754_finite false 7515381878174515 (-48).
Definition lit_0_7 : spec_float := S754_finite false 6305039478318694 (-53).
Definition lit_m1e_6 : spec_float := S754_finite true 4722366482869645 (-72).
Definition lit_1e_200 : spec_float := S754_finite false 6894565328877484 (-717).
Definition lit_1e200 : spec_float := S754_finite false 5883593420661338 612.
Definition lit_1e_77 : spec_float := S754_finite false 5214812099416284 (-308).
Definition lit_1e308 : spec_float := S754_finite false 5010420900022432 971.

(** ** The day boundaries

    [(2*math.pi*time)/86400] for [time = 21600], [43200], [86400]: the
    doubles next above [pi/2], [pi] and [2 pi]. *)
Definition quarter_day : spec_float := S754_finite false 7074237752028441 (-52).
Definition half_day : spec_float := S754_finite false 7074237752028441 (-51).
Definition full_day : spec_float := S754_finite false 7074237752028441 (-50).

(** What [get_solar_rad] returns in cycle mode once the argument [x] of
    [math.sin] is computed. *)
Definition flux_of_sine (pf : Platform) (solar_rad : num) (x : spec_float)
    : result num :=
  a <- of_c (libm_sin pf x) ;;
  if gt_zero a then mul solar_rad a else Ok (Int 0).

(** ** One iteration that returns

    Iteration [i] takes the state [st] to [st'] and appends [pipe], [po] and
    [to]: it computes [time = dt*i], calls the panel update, then the fluid
    update with the panel update's result. *)
Definition iteration (pf : Platform) (g : Config.t) (i : Z)
    (st st' : MainState) (pipe po to : num) : Prop :=
  exists time,
    mul (Config.dt g) (Int i) = Ok time
    /\ SolarPanel.UpdateTemp pf g time (Panel st) = (Ok pipe, Panel st')
    /\ Fluid.UpdateTemp pf g (Water st) pipe = (Ok (po, to), Water st')
    /\ pipe_temps st' = pipe_temps st ++ [pipe]
    /\ panel_outlet_temps st' = panel_outlet_temps st ++ [po]
    /\ tank_outlet_temps st' = tank_outlet_temps st ++ [to].

(** The three series of [st'] are those of [st]. *)
Definition same_series (st st' : MainState) : Prop :=
  pipe_temps st' = pipe_temps st
  /\ panel_outlet_temps st' = panel_outlet_temps st
  /\ tank_outlet_temps st' = tank_outlet_temps st.

(** The states agree in everything except, possibly, [Water.T_panel_out]. *)
Definition agree_but_T_panel_out (st1 st2 : MainState) : Prop :=
  Panel st1 = Panel st2
  /\ (exists v, Water st1 = Fluid.set_T_panel_out (Water st2) v)
  /\ tank_outlet_temps st1 = tank_outlet_temps st2
  /\ panel_outlet_temps st1 = panel_outlet_temps st2
  /\ pipe_temps st1 = pipe_temps st2.

(** The first [k] iterations have returned and left the state [st]: each
    series has [k] entries, and entry [i] is the one iteration [i]
    appended. *)
Definition completed (pf : Platform) (g : Config.t)
    (Panel0 : SolarPanel.t) (Water0 : Fluid.t) (k : nat) (st : MainState) : Prop :=
  state_after pf g Panel0 Water0 k = (Ok tt, st)
  /\ length (pipe_temps st) = k
  /\ length (panel_outlet_temps st) = k
  /\ length (tank_outlet_temps st) = k
  /\ forall i : nat, (i < k)%nat ->
       exists sti sti' pipe po to,
         state_after pf g Panel0 Water0 i = (Ok tt, sti)
         /\ state_after pf g Panel0 Water0 (S i) = (Ok tt, sti')
         /\ iteration pf g (Z.of_nat i) sti sti' pipe po to
         /\ nth_error (pipe_temps st) i = Some pipe
         /\ nth_error (panel_outlet_temps st) i = Some po
         /\ nth_error (tank_outlet_temps st) i = Some to.

End Py.

(** * The formulas on real numbers

    The same source with every number read as a real number.  Only
    [ZeroDivisionError] is left of the exceptions. *)

(** ** Outcomes of a call *)

Inductive exn : Set := ZeroDivisionError.

Inductive result (A : Type) : Type :=
| Ok (a : A)
| Raise (e : exn).

Arguments Ok {A} a.
Arguments Raise {A} e.

(** [x / y] of Python on numbers. *)
Definition py_div (x y : R) : result R :=
  if Req_dec_T y 0 then Raise ZeroDivisionError else Ok (x / y).

(** ** Helper functions *)

Definition Kelvin (T : R) : R := T + 273.

Definition get_solar_rad (solar_rad time : R) (cycle : bool) : R :=
  if cycle then
    let a := sin ((2 * PI * time) / 86400) in
    if Rlt_dec 0 a then solar_rad * a else 0
  else solar_rad.

(** ** Module-level configuration *)

Module Config.

Record t : Type := mk {
  cycle : bool;
  dt : R;
  steps : Z;
  T_amb : R;
  solar_rad : R;
  sigma : R
}.

(** The values bound under [if __name__ == "__main__"]. *)
Definition default : t :=
  {| cycle := false; dt := 1; steps := 500000; T_amb := 25;
     solar_rad := 1000; sigma := 5.67e-8 |}.

End Config.

(** ** Solar panel *)

Module SolarPanel.

Record t : Type := mk {
  T : R;
  effi : R;
  pipe_len : R;
  pipe_dia : R;
  pipe_area : R;
  panel_area : R;
  panel_thickness : R;
  C : R;
  emmi : R
}.

(** [SolarPanel.__init__] *)
Definition init (T effi emmi pipe_len pipe_dia panel_area panel_thickness C : R) : t :=
  {| T := T;
     effi := effi;
     pipe_len := pipe_len;
     pipe_dia := pipe_dia;
     pipe_area := (PI * pipe_dia ^ 2) / 4;
     panel_area := panel_area;
     panel_thickness := panel_thickness;
     C := C;
     emmi := emmi |}.

(** [SolarPanel()] with the default arguments. *)
Definition default : t := init 25 0.5 0.4 5 0.025 1 0.06 500.

(** [self.T = v] *)
Definition set_T (self : t) (v : R) : t :=
  {| T := v;
     effi := effi self;
     pipe_len := pipe_len self;
     pipe_dia := pipe_dia self;
     pipe_area := pipe_area self;
     panel_area := panel_area self;
     panel_thickness := panel_thickness self;
     C := C self;
     emmi := emmi self |}.

(** [SolarPanel.UpdateTemp]; when the division raises, [self.T] has not been
    assigned. *)
Definition UpdateTemp (g : Config.t) (time : R) (self : t) : result R * t :=
  let radiation_in :=
    get_solar_rad (Config.solar_rad g) time (Config.cycle g)
    * effi self * panel_area self in
  let radiation_loss :=
    Config.sigma g * panel_area self * emmi self
    * ((Kelvin (T self)) ^ 4 - (Kelvin (Config.T_amb g)) ^ 4) * Config.dt g in
  let convection_loss := 0.2 * radiation_loss in
  let panel_available_heat := radiation_in - (radiation_loss + convection_loss) in
  let panel_mass := panel_thickness self * panel_area self * 7800 in
  match py_div panel_available_heat (C self * panel_mass) with
  | Raise e => (Raise e, self)
  | Ok q =>
      let self' := set_T self (T self + q) in
      (Ok (T self'), self')
  end.

End SolarPanel.

(** ** Fluid *)

Module Fluid.

Record t : Type := mk {
  rho : R;
  velocity : R;
  C : R;
  ht_coeff : R;
  T_panel_out : R;
  T_tank_out : R;
  alpha : R;
  len : R;
  pipe_area : R;
  tank_volume : R
}.

(** [Fluid.__init__]; the only statement that can raise is the one computing
    [alpha], and then no object is produced. *)
Definition init (solarpanel : SolarPanel.t)
    (tank_volume T_panel_out T_tank_out C rho velocity ht_coeff : R) : result t :=
  match py_div (4 * ht_coeff)
               (C * rho * velocity * SolarPanel.pipe_dia solarpanel) with
  | Raise e => Raise e
  | Ok a =>
      Ok {| rho := rho;
            velocity := velocity;
            C := C;
            ht_coeff := ht_coeff;
            T_panel_out := T_panel_out;
            T_tank_out := T_tank_out;
            alpha := a;
            len := SolarPanel.pipe_len solarpanel;
            pipe_area := SolarPanel.pipe_area solarpanel;
            tank_volume := tank_volume |}
  end.

(** [Fluid(solarpanel=...)] with the default arguments. *)
Definition init_default (solarpanel : SolarPanel.t) : result t :=
  init solarpanel 2 25 25 4180 1000 0.05 300.

(** [self.T_panel_out = v] *)
Definition set_T_panel_out (self : t) (v : R) : t :=
  {| rho := rho self;
     velocity := velocity self;
     C := C self;
     ht_coeff := ht_coeff self;
     T_panel_out := v;
     T_tank_out := T_tank_out self;
     alpha := alpha self;
     len := len self;
     pipe_area := pipe_area self;
     tank_volume := tank_volume self |}.

(** [self.T_tank_out = v] *)
Definition set_T_tank_out (self : t) (v : R) : t :=
  {| rho := rho self;
     velocity := velocity self;
     C := C self;
     ht_coeff := ht_coeff self;
     T_panel_out := T_panel_out self;
     T_tank_out := v;
     alpha := alpha self;
     len := len self;
     pipe_area := pipe_area self;
     tank_volume := tank_volume self |}.

(** [Fluid.UpdateTemp]; [self.T_panel_out] is assigned before the division, so
    it keeps its new value when the division raises. *)
Definition UpdateTemp (g : Config.t) (self : t) (pipe_temp_updated : R)
    : result (R * R) * t :=
  let self1 :=
    set_T_panel_out self
      (pipe_temp_updated
       + ((T_tank_out self - pipe_temp_updated) * exp ((- alpha self) * len self))) in
  let m := rho self1 * pipe_area self1 * velocity self1 * Config.dt g in
  let M := tank_volume self1 * rho self1 in
  match py_div (m * T_panel_out self1 + M * T_tank_out self1) (m + M) with
  | Raise e => (Raise e, self1)
  | Ok q =>
      let self2 := set_T_tank_out self1 q in
      (Ok (T_panel_out self2, T_tank_out self2), self2)
  end.

End Fluid.

(** ** Main loop *)

(** What the loop reads and writes: the two objects and the three lists. *)
Record MainState : Type := mkMainState {
  Panel : SolarPanel.t;
  Water : Fluid.t;
  tank_outlet_temps : list R;
  panel_outlet_temps : list R;
  pipe_temps : list R
}.

(** [time_array = dt * np.arange(steps)] *)
Definition time_array (g : Config.t) : list R :=
  map (fun i => Config.dt g * IZR i) (range (Config.steps g)).

(** The state in which the [for] statement is entered. *)
Definition initial (Panel0 : SolarPanel.t) (Water0 : Fluid.t) : MainState :=
  {| Panel := Panel0; Water := Water0;
     tank_outlet_temps := []; panel_outlet_temps := []; pipe_temps := [] |}.

(** One iteration of the loop for index [i].  An exception leaves the loop
    with the objects as they were when it was raised and nothing appended. *)
Definition loop_body (g : Config.t) (i : Z) (st : MainState) : result unit * MainState :=
  let time := Config.dt g * IZR i in
  match SolarPanel.UpdateTemp g time (Panel st) with
  | (Raise e, Panel') =>
      (Raise e,
       {| Panel := Panel'; Water := Water st;
          tank_outlet_temps := tank_outlet_temps st;
          panel_outlet_temps := panel_outlet_temps st;
          pipe_temps := pipe_temps st |})
  | (Ok pipe_temp_updated, Panel') =>
      match Fluid.UpdateTemp g (Water st) pipe_temp_updated with
      | (Raise e, Water') =>
          (Raise e,
           {| Panel := Panel'; Water := Water';
              tank_outlet_temps := tank_outlet_temps st;
              panel_outlet_temps := panel_outlet_temps st;
              pipe_temps := pipe_temps st |})
      | (Ok (panel_out_temp_updated, tank_out_temp_updated), Water') =>
          (Ok tt,
           {| Panel := Panel'; Water := Water';
              tank_outlet_temps := tank_outlet_temps st ++ [tank_out_temp_updated];
              panel_outlet_temps := panel_outlet_temps st ++ [panel_out_temp_updated];
              pipe_temps := pipe_temps st ++ [pipe_temp_updated] |})
      end
  end.

(** [for i in l: body]; the first exception ends the loop. *)
Fixpoint for_in (body : Z -> MainState -> result unit * MainState)
    (l : list Z) (st : MainState) : result unit * MainState :=
  match l with
  | [] => (Ok tt, st)
  | i :: l' =>
      match body i st with
      | (Ok _, st') => for_in body l' st'
      | (Raise e, st') => (Raise e, st')
      end
  end.

(** The list initialisations and the [for] statement of the main block, for
    the objects [Panel0] and [Water0] built just before. *)
Definition main_loop (g : Config.t) (Panel0 : SolarPanel.t) (Water0 : Fluid.t)
    : result unit * MainState :=
  for_in (loop_body g) (range (Config.steps g)) (initial Panel0 Water0).

(** The state after the first [n] iterations have been attempted. *)
Definition state_after (g : Config.t) (Panel0 : SolarPanel.t) (Water0 : Fluid.t)
    (n : nat) : result unit * MainState :=
  for_in (loop_body g) (range (Z.of_nat n)) (initial Panel0 Water0).

(** [Panel = SolarPanel()] *)
Definition default_Panel : SolarPanel.t := SolarPanel.default.

(** The object that [Water = Fluid(solarpanel=Panel)] builds; see
    [Fluid_init_default_Panel]. *)
Definition default_Water : Fluid.t :=
  {| Fluid.rho := 1000;
     Fluid.velocity := 0.05;
     Fluid.C := 4180;
     Fluid.ht_coeff := 300;
     Fluid.T_panel_out := 25;
     Fluid.T_tank_out := 25;
     Fluid.alpha := (4 * 300) / (4180 * 1000 * 0.05 * 0.025);
     Fluid.len := 5;
     Fluid.pipe_area := (PI * 0.025 ^ 2) / 4;
     Fluid.tank_volume := 2 |}.

(** ** Quantities of one step

    The sub-expressions of the two [UpdateTemp] methods that the statements
    below speak about, under the names the source gives them. *)

(** [self.C * panel_mass], the divisor of the panel update. *)
Definition panel_divisor (p : SolarPanel.t) : R :=
  SolarPanel.C p * (SolarPanel.panel_thickness p * SolarPanel.panel_area p * 7800).

(** [radiation_in] *)
Definition radiation_in (g : Config.t) (time : R) (p : SolarPanel.t) : R :=
  get_solar_rad (Config.solar_rad g) time (Config.cycle g)
  * SolarPanel.effi p * SolarPanel.panel_area p.

(** [radiation_loss] *)
Definition radiation_loss (g : Config.t) (p : SolarPanel.t) : R :=
  Config.sigma g * SolarPanel.panel_area p * SolarPanel.emmi p
  * ((Kelvin (SolarPanel.T p)) ^ 4 - (Kelvin (Config.T_amb g)) ^ 4) * Config.dt g.

(** [convection_loss] *)
Definition convection_loss (g : Config.t) (p : SolarPanel.t) : R :=
  0.2 * radiation_loss g p.

(** [panel_available_heat] *)
Definition panel_available_heat (g : Config.t) (time : R) (p : SolarPanel.t) : R :=
  radiation_in g time p - (radiation_loss g p + convection_loss g p).

(** [m], the mass of fluid that reaches the tank in one step. *)
Definition fluid_m (g : Config.t) (fl : Fluid.t) : R :=
  Fluid.rho fl * Fluid.pipe_area fl * Fluid.velocity fl * Config.dt g.

(** [M], the mass of fluid in the tank. *)
Definition fluid_M (fl : Fluid.t) : R :=
  Fluid.tank_volume fl * Fluid.rho fl.

(** The value assigned to [self.T_panel_out]. *)
Definition panel_out_new (fl : Fluid.t) (pipe_temp_updated : R) : R :=
  pipe_temp_updated
  + ((Fluid.T_tank_out fl - pipe_temp_updated)
     * exp ((- Fluid.alpha fl) * Fluid.len fl)).

(** The value assigned to [self.T_tank_out] when the division succeeds. *)
Definition tank_out_new (g : Config.t) (fl : Fluid.t) (pipe_temp_updated : R) : R :=
  (fluid_m g fl * panel_out_new fl pipe_temp_updated
   + fluid_M fl * Fluid.T_tank_out fl)
  / (fluid_m g fl + fluid_M fl).

(** ** Two runs that differ only in the initial panel-outlet temperature *)

(** The states agree in everything except, possibly, [Water.T_panel_out]. *)
Definition agree_but_T_panel_out (st1 st2 : MainState) : Prop :=
  Panel st1 = Panel st2
  /\ (exists v, Water st1 = Fluid.set_T_panel_out (Water st2) v)
  /\ tank_outlet_temps st1 = tank_outlet_temps st2
  /\ panel_outlet_temps st1 = panel_outlet_temps st2
  /\ pipe_temps st1 = pipe_temps st2.

(** * Properties of the program *)

(** ** Sequencing *)

Lemma bind_Ok {A B : Type} (r : Py.result A) (k : A -> Py.result B) (b : B) :
  Py.bind r k = Py.Ok b <-> exists a, r = Py.Ok a /\ k a = Py.Ok b.
Proof.
  destruct r as [a | e]; simpl; split.
  - intros H. exists a. split; [reflexivity | exact H].
  - intros (a' & E & H). injection E as ->. exact H.
  - discriminate.
  - intros (a' & E & _). discriminate.
Qed.

Lemma bind_Raise {A B : Type} (r : Py.result A) (k : A -> Py.result B) (e : Py.exn) :
  Py.bind r k = Py.Raise e
  <-> r = Py.Raise e \/ exists a, r = Py.Ok a /\ k a = Py.Raise e.
Proof.
  destruct r as [a | e']; simpl; split.
  - intros H. right. exists a. split; [reflexivity | exact H].
  - intros [E | (a' & E & H)]; [discriminate |]. injection E as ->. exact H.
  - intros H. left. injection H as ->. reflexivity.
  - intros [E | (a' & E & _)]; [injection E as ->; reflexivity | discriminate].
Qed.

(** ** Which operation raises what *)

Lemma float_of_int_not_ZeroDivisionError (z : Z) :
  Py.float_of_int z <> Py.Raise Py.ZeroDivisionError.
Proof.
  unfold Py.float_of_int.
  destruct (binary_normalize Py.prec Py.emax z 0 false); discriminate.
Qed.

Lemma to_float_not_ZeroDivisionError (x : Py.num) :
  Py.to_float x <> Py.Raise Py.ZeroDivisionError.
Proof.
  destruct x as [z | f]; simpl.
  - apply float_of_int_not_ZeroDivisionError.
  - discriminate.
Qed.

Lemma arith_not_ZeroDivisionError zop fop (x y : Py.num) :
  Py.arith zop fop x y <> Py.Raise Py.ZeroDivisionError.
Proof.
  intros H. unfold Py.arith in H.
  destruct x as [a | fa]; destruct y as [b | fb]; try discriminate H;
    apply bind_Raise in H; destruct H as [H | (u & _ & H)];
    try (apply to_float_not_ZeroDivisionError in H; exact H);
    apply bind_Raise in H; destruct H as [H | (w & _ & H)];
    try (apply to_float_not_ZeroDivisionError in H; exact H);
    discriminate H.
Qed.

Lemma add_not_ZeroDivisionError (x y : Py.num) :
  Py.add x y <> Py.Raise Py.ZeroDivisionError.
Proof. apply arith_not_ZeroDivisionError. Qed.

Lemma sub_not_ZeroDivisionError (x y : Py.num) :
  Py.sub x y <> Py.Raise Py.ZeroDivisionError.
Proof. apply arith_not_ZeroDivisionError. Qed.

Lemma mul_not_ZeroDivisionError (x y : Py.num) :
  Py.mul x y <> Py.Raise Py.ZeroDivisionError.
Proof. apply arith_not_ZeroDivisionError. Qed.

Lemma of_c_not_ZeroDivisionError (r : Py.c_result) :
  Py.of_c r <> Py.Raise Py.ZeroDivisionError.
Proof. destruct r as [f | []]; discriminate. Qed.

Lemma pow_not_ZeroDivisionError (pf : Py.Platform) (x : Py.num) (n : Z) :
  Py.pow pf x n <> Py.Raise Py.ZeroDivisionError.
Proof.
  destruct x as [a | f]; simpl; [discriminate | apply of_c_not_ZeroDivisionError].
Qed.

Lemma math_sin_not_ZeroDivisionError (pf : Py.Platform) (x : Py.num) :
  Py.math_sin pf x <> Py.Raise Py.ZeroDivisionError.
Proof.
  intros H. apply bind_Raise in H. destruct H as [H | (f & _ & H)].
  - exact (to_float_not_ZeroDivisionError _ H).
  - exact (of_c_not_ZeroDivisionError _ H).
Qed.

Lemma math_exp_not_ZeroDivisionError (pf : Py.Platform) (x : Py.num) :
  Py.math_exp pf x <> Py.Raise Py.ZeroDivisionError.
Proof.
  intros H. apply bind_Raise in H. destruct H as [H | (f & _ & H)].
  - exact (to_float_not_ZeroDivisionError _ H).
  - exact (of_c_not_ZeroDivisionError _ H).
Qed.

(** A mixed operation returns a [float]. *)
Lemma arith_Float zop fop (x y r : Py.num) :
  Py.arith zop fop x y = Py.Ok r ->
  Py.is_int x = false \/ Py.is_int y = false ->
  Py.is_int r = false.
Proof.
  intros H Hm. unfold Py.arith in H.
  destruct x as [a | fa]; destruct y as [b | fb];
    try (destruct Hm as [Hm | Hm]; discriminate Hm);
    apply bind_Ok in H; destruct H as (u & _ & H);
    apply bind_Ok in H; destruct H as (w & _ & H);
    injection H as <-; reflexivity.
Qed.

Lemma of_c_Float (c : Py.c_result) (r : Py.num) :
  Py.of_c c = Py.Ok r -> Py.is_int r = false.
Proof.
  destruct c as [f | []]; simpl; intros H; try discriminate H.
  injection H as <-. reflexivity.
Qed.

Lemma math_exp_Float (pf : Py.Platform) (x r : Py.num) :
  Py.math_exp pf x = Py.Ok r -> Py.is_int r = false.
Proof.
  intros H. apply bind_Ok in H. destruct H as (f & _ & H).
  exact (of_c_Float _ _ H).
Qed.

(** [/] returns a [float]. *)
Lemma truediv_Float (x y r : Py.num) :
  Py.truediv x y = Py.Ok r -> Py.is_int r = false.
Proof.
  unfold Py.truediv. intros H.
  destruct x as [a | fa]; destruct y as [b | fb]; simpl in H.
  - destruct (Z.eqb b 0); [discriminate H |].
    destruct (SFdiv Py.prec Py.emax (Py.int_mantissa a) (Py.int_mantissa b));
      try discriminate H; injection H as <-; reflexivity.
  - apply bind_Ok in H. destruct H as (u & _ & H). simpl in H.
    destruct (Py.is_zero fb); [discriminate H |]. injection H as <-. reflexivity.
  - apply bind_Ok in H. destruct H as (u & _ & H).
    destruct (Py.is_zero u); [discriminate H |]. injection H as <-. reflexivity.
  - destruct (Py.is_zero fb); [discriminate H |]. injection H as <-. reflexivity.
Qed.

(** ** Division by zero *)

Lemma num_is_zero_as_float (y : Py.num) :
  Py.num_is_zero y = true -> Py.zero_as_float y.
Proof.
  destruct y as [b | f]; simpl; intros H.
  - apply Z.eqb_eq in H. subst b. exists (S754_zero false). split; reflexivity.
  - exists f. split; [reflexivity | exact H].
Qed.

(** A [float] divided by a number raises [ZeroDivisionError] exactly when
    the divisor, as a [float], is a zero. *)
Lemma truediv_Float_ZeroDivisionError (x y : Py.num) :
  Py.is_int x = false ->
  (Py.truediv x y = Py.Raise Py.ZeroDivisionError <-> Py.zero_as_float y).
Proof.
  intros Hx. destruct x as [a | fa]; [discriminate Hx |].
  unfold Py.truediv, Py.zero_as_float.
  destruct y as [b | fb]; simpl.
  - destruct (Py.float_of_int b) as [u | e] eqn:E; simpl.
    + destruct (Py.is_zero u) eqn:Z; split.
      * intros _. exists u. split; [reflexivity | exact Z].
      * reflexivity.
      * discriminate.
      * intros (b' & Eb & Zb). injection Eb as <-. rewrite Z in Zb. discriminate.
    + split.
      * intros H. injection H as ->.
        exfalso. exact (float_of_int_not_ZeroDivisionError _ E).
      * intros (b' & Eb & _). discriminate.
  - destruct (Py.is_zero fb) eqn:Z; split.
    + intros _. exists fb. split; [reflexivity | exact Z].
    + reflexivity.
    + discriminate.
    + intros (b' & Eb & Zb). injection Eb as <-. rewrite Z in Zb. discriminate.
Qed.

(** Two [int]s: the divisor is the integer [0]. *)
Lemma truediv_Int_ZeroDivisionError (a b : Z) :
  Py.truediv (Py.Int a) (Py.Int b) = Py.Raise Py.ZeroDivisionError <-> b = 0%Z.
Proof.
  unfold Py.truediv. destruct (Z.eqb_spec b 0) as [E | N]; split.
  - intros _. exact E.
  - reflexivity.
  - destruct (SFdiv Py.prec Py.emax (Py.int_mantissa a) (Py.int_mantissa b));
      discriminate.
  - intros E. contradiction.
Qed.

Lemma bind_not_ZeroDivisionError {A B : Type}
    (r : Py.result A) (k : A -> Py.result B) :
  r <> Py.Raise Py.ZeroDivisionError ->
  (forall a, r = Py.Ok a -> k a <> Py.Raise Py.ZeroDivisionError) ->
  Py.bind r k <> Py.Raise Py.ZeroDivisionError.
Proof.
  intros Hr Hk H. apply bind_Raise in H. destruct H as [H | (a & E & H)].
  - exact (Hr H).
  - exact (Hk a E H).
Qed.

Create HintDb zde.

#[local] Hint Resolve to_float_not_ZeroDivisionError of_c_not_ZeroDivisionError
  add_not_ZeroDivisionError sub_not_ZeroDivisionError
  mul_not_ZeroDivisionError pow_not_ZeroDivisionError
  math_sin_not_ZeroDivisionError math_exp_not_ZeroDivisionError : zde.

Ltac not_zde :=
  repeat (apply bind_not_ZeroDivisionError; [auto with zde | intros ? ?]);
  auto with zde.

(** ** The radiation model never divides by zero *)

Lemma get_solar_rad_not_ZeroDivisionError
    (pf : Py.Platform) (solar_rad time : Py.num) (cycle : bool) :
  Py.get_solar_rad pf solar_rad time cycle <> Py.Raise Py.ZeroDivisionError.
Proof.
  unfold Py.get_solar_rad. destruct cycle; [| discriminate].
  apply bind_not_ZeroDivisionError; [auto with zde | intros t1 E1].
  apply bind_not_ZeroDivisionError; [auto with zde | intros t2 E2].
  apply bind_not_ZeroDivisionError.
  - assert (Ht1 : Py.is_int t1 = false).
    { apply (arith_Float _ _ _ _ _ E1). right. reflexivity. }
    assert (Ht2 : Py.is_int t2 = false).
    { apply (arith_Float _ _ _ _ _ E2). left. exact Ht1. }
    intros H. apply (truediv_Float_ZeroDivisionError _ _ Ht2) in H.
    destruct H as (b & Eb & Zb). vm_compute in Eb. injection Eb as <-.
    discriminate Zb.
  - intros t3 _.
    apply bind_not_ZeroDivisionError; [auto with zde | intros a _].
    destruct (Py.gt_zero a); [auto with zde | discriminate].
Qed.

#[local] Hint Resolve get_solar_rad_not_ZeroDivisionError : zde.

(** ** The panel update *)

Lemma radiation_in_not_ZeroDivisionError pf g time p :
  Py.SolarPanel.radiation_in pf g time p <> Py.Raise Py.ZeroDivisionError.
Proof. unfold Py.SolarPanel.radiation_in. not_zde. Qed.

Lemma Kelvin4_not_ZeroDivisionError pf x :
  Py.SolarPanel.Kelvin4 pf x <> Py.Raise Py.ZeroDivisionError.
Proof. unfold Py.SolarPanel.Kelvin4, Py.Kelvin. not_zde. Qed.

#[local] Hint Resolve radiation_in_not_ZeroDivisionError
  Kelvin4_not_ZeroDivisionError : zde.

Lemma radiation_loss_not_ZeroDivisionError pf g p :
  Py.SolarPanel.radiation_loss pf g p <> Py.Raise Py.ZeroDivisionError.
Proof. unfold Py.SolarPanel.radiation_loss. not_zde. Qed.

#[local] Hint Resolve radiation_loss_not_ZeroDivisionError : zde.

Lemma panel_available_heat_not_ZeroDivisionError pf g time p :
  Py.SolarPanel.panel_available_heat pf g time p <> Py.Raise Py.ZeroDivisionError.
Proof. unfold Py.SolarPanel.panel_available_heat. not_zde. Qed.

Lemma divisor_not_ZeroDivisionError p :
  Py.SolarPanel.divisor p <> Py.Raise Py.ZeroDivisionError.
Proof. unfold Py.SolarPanel.divisor, Py.SolarPanel.panel_mass. not_zde. Qed.

(** [panel_available_heat] is a [float]: [0.2 * radiation_loss] is one. *)
Lemma panel_available_heat_Float pf g time p heat :
  Py.SolarPanel.panel_available_heat pf g time p = Py.Ok heat ->
  Py.is_int heat = false.
Proof.
  unfold Py.SolarPanel.panel_available_heat. intros H.
  apply bind_Ok in H. destruct H as (rin & _ & H).
  apply bind_Ok in H. destruct H as (rl & _ & H).
  apply bind_Ok in H. destruct H as (cl & Ecl & H).
  apply bind_Ok in H. destruct H as (loss & Eloss & H).
  assert (Hcl : Py.is_int cl = false).
  { apply (arith_Float _ _ _ _ _ Ecl). left. reflexivity. }
  assert (Hloss : Py.is_int loss = false).
  { apply (arith_Float _ _ _ _ _ Eloss). right. exact Hcl. }
  apply (arith_Float _ _ _ _ _ H). right. exact Hloss.
Qed.


(** ** The fluid update *)

Lemma exp_factor_not_ZeroDivisionError pf fl :
  Py.Fluid.exp_factor pf fl <> Py.Raise Py.ZeroDivisionError.
Proof. unfold Py.Fluid.exp_factor. not_zde. Qed.

#[local] Hint Resolve exp_factor_not_ZeroDivisionError : zde.

Lemma new_T_panel_out_not_ZeroDivisionError pf fl pipe :
  Py.Fluid.new_T_panel_out pf fl pipe <> Py.Raise Py.ZeroDivisionError.
Proof. unfold Py.Fluid.new_T_panel_out. not_zde. Qed.

Lemma m_not_ZeroDivisionError g fl :
  Py.Fluid.m g fl <> Py.Raise Py.ZeroDivisionError.
Proof. unfold Py.Fluid.m. not_zde. Qed.

Lemma M_not_ZeroDivisionError fl :
  Py.Fluid.M fl <> Py.Raise Py.ZeroDivisionError.
Proof. unfold Py.Fluid.M. not_zde. Qed.

(** The new panel-outlet temperature is a [float]: [math.exp] returns one. *)
Lemma new_T_panel_out_Float pf fl pipe po :
  Py.Fluid.new_T_panel_out pf fl pipe = Py.Ok po -> Py.is_int po = false.
Proof.
  unfold Py.Fluid.new_T_panel_out, Py.Fluid.exp_factor. intros H.
  apply bind_Ok in H. destruct H as (d & _ & H).
  apply bind_Ok in H. destruct H as (e & Ee & H).
  apply bind_Ok in Ee. destruct Ee as (x & _ & Ee).
  apply bind_Ok in H. destruct H as (t1 & Et1 & H).
  assert (He : Py.is_int e = false) by exact (math_exp_Float _ _ _ Ee).
  assert (Ht1 : Py.is_int t1 = false).
  { apply (arith_Float _ _ _ _ _ Et1). right. exact He. }
  apply (arith_Float _ _ _ _ _ H). right. exact Ht1.
Qed.

(** Line 151 divides a [float]: it raises [ZeroDivisionError] exactly when
    the two products and the two sums are computed and [m + M], as a float,
    is a zero. *)
Lemma mix_ZeroDivisionError (m M po to : Py.num) :
  Py.is_int po = false ->
  (Py.Fluid.mix m M po to = Py.Raise Py.ZeroDivisionError
   <-> exists a b n d,
         Py.mul m po = Py.Ok a /\ Py.mul M to = Py.Ok b
         /\ Py.add a b = Py.Ok n /\ Py.add m M = Py.Ok d
         /\ Py.zero_as_float d).
Proof.
  intros Hpo. unfold Py.Fluid.mix. split.
  - intros H.
    apply bind_Raise in H. destruct H as [H | (a & Ea & H)].
    { exfalso. exact (mul_not_ZeroDivisionError _ _ H). }
    apply bind_Raise in H. destruct H as [H | (b & Eb & H)].
    { exfalso. exact (mul_not_ZeroDivisionError _ _ H). }
    apply bind_Raise in H. destruct H as [H | (n & En & H)].
    { exfalso. exact (add_not_ZeroDivisionError _ _ H). }
    apply bind_Raise in H. destruct H as [H | (d & Ed & H)].
    { exfalso. exact (add_not_ZeroDivisionError _ _ H). }
    exists a, b, n, d. repeat split; try assumption.
    assert (Ha : Py.is_int a = false).
    { apply (arith_Float _ _ _ _ _ Ea). right. exact Hpo. }
    assert (Hn : Py.is_int n = false).
    { apply (arith_Float _ _ _ _ _ En). left. exact Ha. }
    apply (truediv_Float_ZeroDivisionError n d Hn). exact H.
  - intros (a & b & n & d & Ea & Eb & En & Ed & Z).
    rewrite Ea. simpl. rewrite Eb. simpl. rewrite En. simpl. rewrite Ed. simpl.
    assert (Ha : Py.is_int a = false).
    { apply (arith_Float _ _ _ _ _ Ea). right. exact Hpo. }
    assert (Hn : Py.is_int n = false).
    { apply (arith_Float _ _ _ _ _ En). left. exact Ha. }
    apply (truediv_Float_ZeroDivisionError n d Hn). exact Z.
Qed.


(** ** The constructor of [Fluid] *)

Lemma alpha_divisor_not_ZeroDivisionError C rho velocity pipe_dia :
  Py.Fluid.alpha_divisor C rho velocity pipe_dia <> Py.Raise Py.ZeroDivisionError.
Proof. unfold Py.Fluid.alpha_divisor. not_zde. Qed.

(** On [int]s the divisor is the exact product. *)
Lemma alpha_divisor_Int (c r v d : Z) :
  Py.Fluid.alpha_divisor (Py.Int c) (Py.Int r) (Py.Int v) (Py.Int d)
  = Py.Ok (Py.Int (c * r * v * d)).
Proof. reflexivity. Qed.

(** When [/] raises [ZeroDivisionError] the divisor, as a float, is a zero;
    a divisor that is [0], [0.0] or [-0.0] raises it as soon as the dividend
    can be converted. *)
Lemma truediv_ZeroDivisionError_zero (x y : Py.num) :
  Py.truediv x y = Py.Raise Py.ZeroDivisionError -> Py.zero_as_float y.
Proof.
  destruct x as [a | fa].
  - destruct y as [b | fb].
    + intros H. apply truediv_Int_ZeroDivisionError in H. subst b.
      exists (S754_zero false). split; reflexivity.
    + unfold Py.truediv. intros H.
      apply bind_Raise in H. destruct H as [H | (u & _ & H)].
      { exfalso. exact (to_float_not_ZeroDivisionError _ H). }
      simpl in H. destruct (Py.is_zero fb) eqn:Z; [| discriminate H].
      exists fb. split; [reflexivity | exact Z].
  - apply truediv_Float_ZeroDivisionError. reflexivity.
Qed.

Lemma truediv_zero_ZeroDivisionError (x y : Py.num) :
  Py.num_is_zero y = true ->
  (exists f, Py.to_float x = Py.Ok f) ->
  Py.truediv x y = Py.Raise Py.ZeroDivisionError.
Proof.
  intros Hy (f & Hf).
  destruct x as [a | fa]; destruct y as [b | fb]; simpl in Hy.
  - apply truediv_Int_ZeroDivisionError. apply Z.eqb_eq. exact Hy.
  - unfold Py.truediv. rewrite Hf. simpl. rewrite Hy. reflexivity.
  - apply truediv_Float_ZeroDivisionError; [reflexivity |].
    apply num_is_zero_as_float. exact Hy.
  - apply truediv_Float_ZeroDivisionError; [reflexivity |].
    apply num_is_zero_as_float. exact Hy.
Qed.


(** ** The loop *)

Lemma range_succ (n : nat) :
  range (Z.of_nat (S n)) = range (Z.of_nat n) ++ [Z.of_nat n].
Proof.
  unfold range. rewrite !Nat2Z.id.
  rewrite seq_S, map_app. reflexivity.
Qed.

Lemma Py_for_in_app (body : Z -> Py.MainState -> Py.result unit * Py.MainState)
    (l1 l2 : list Z) (st : Py.MainState) :
  Py.for_in body (l1 ++ l2) st
  = match Py.for_in body l1 st with
    | (Py.Ok _, st') => Py.for_in body l2 st'
    | (Py.Raise e, st') => (Py.Raise e, st')
    end.
Proof.
  revert st. induction l1 as [| i l1 IH]; intros st; simpl.
  - reflexivity.
  - destruct (body i st) as [[u | e] st'].
    + apply IH.
    + reflexivity.
Qed.

Lemma Py_state_after_succ pf g P W (n : nat) :
  Py.state_after pf g P W (S n)
  = match Py.state_after pf g P W n with
    | (Py.Ok _, st) => Py.loop_body pf g (Z.of_nat n) st
    | (Py.Raise e, st) => (Py.Raise e, st)
    end.
Proof.
  unfold Py.state_after. rewrite range_succ, Py_for_in_app.
  destruct (Py.for_in (Py.loop_body pf g) (range (Z.of_nat n)) (Py.initial P W))
    as [[u | e] st].
  - simpl. destruct (Py.loop_body pf g (Z.of_nat n) st) as [[[] | e] st'];
      reflexivity.
  - reflexivity.
Qed.

Lemma Py_main_loop_state_after pf g P W :
  Py.main_loop pf g P W = Py.state_after pf g P W (Z.to_nat (Py.Config.steps g)).
Proof.
  unfold Py.main_loop, Py.state_after, range. rewrite Nat2Z.id. reflexivity.
Qed.

(** An iteration that returns has computed the time, called the panel
    update, then the fluid update with its result, and appended the three
    temperatures. *)
Lemma Py_loop_body_Ok pf g (i : Z) (st st' : Py.MainState) (u : unit) :
  Py.loop_body pf g i st = (Py.Ok u, st') ->
  exists pipe po to, Py.iteration pf g i st st' pipe po to.
Proof.
  unfold Py.loop_body, Py.iteration. intros H.
  destruct (Py.mul (Py.Config.dt g) (Py.Int i)) as [time | e]; [| discriminate H].
  destruct (Py.SolarPanel.UpdateTemp pf g time (Py.Panel st))
    as [[pipe | e] P'] eqn:EP; [| discriminate H].
  destruct (Py.Fluid.UpdateTemp pf g (Py.Water st) pipe)
    as [[[po to] | e] W'] eqn:EW; [| discriminate H].
  injection H as _ <-. simpl.
  exists pipe, po, to, time. repeat split; assumption.
Qed.

(** An iteration that raises appends nothing. *)
Lemma Py_loop_body_Raise pf g (i : Z) (st st' : Py.MainState) (e : Py.exn) :
  Py.loop_body pf g i st = (Py.Raise e, st') -> Py.same_series st st'.
Proof.
  unfold Py.loop_body, Py.same_series. intros H.
  destruct (Py.mul (Py.Config.dt g) (Py.Int i)) as [time | e0].
  - destruct (Py.SolarPanel.UpdateTemp pf g time (Py.Panel st))
      as [[pipe | e1] P'].
    + destruct (Py.Fluid.UpdateTemp pf g (Py.Water st) pipe)
        as [[[po to] | e2] W']; [discriminate H |].
      injection H as _ <-. repeat split.
    + injection H as _ <-. repeat split.
  - injection H as _ <-. repeat split.
Qed.

Lemma nth_error_snoc_old {A : Type} (l : list A) (x : A) (i : nat) :
  (i < length l)%nat -> nth_error (l ++ [x]) i = nth_error l i.
Proof. intros H. apply nth_error_app1. exact H. Qed.

Lemma nth_error_snoc_new {A : Type} (l : list A) (x : A) :
  nth_error (l ++ [x]) (length l) = Some x.
Proof.
  rewrite nth_error_app2 by lia. rewrite Nat.sub_diag. reflexivity.
Qed.

(** After [n] attempted iterations: all have returned, or the first one that
    raised, iteration [k], ended the loop with the [k] entries of the
    iterations before it. *)
Lemma Py_run_prefix pf g P W (n : nat) :
  (exists st, Py.completed pf g P W n st)
  \/ (exists (k : nat) stk e st,
        (k < n)%nat
        /\ Py.completed pf g P W k stk
        /\ Py.loop_body pf g (Z.of_nat k) stk = (Py.Raise e, st)
        /\ Py.state_after pf g P W n = (Py.Raise e, st)
        /\ Py.same_series stk st).
Proof.
  induction n as [| n IH].
  - left. exists (Py.initial P W). unfold Py.completed. repeat split.
    intros i Hi. lia.
  - destruct IH as [(st & Hst) | (k & stk & e & st & Hk & Hc & Hb & Hn & Hs)].
    + destruct Hst as (Est & L1 & L2 & L3 & Hent).
      destruct (Py.loop_body pf g (Z.of_nat n) st) as [[[] | e] st'] eqn:Eb.
      * left. exists st'.
        assert (ES : Py.state_after pf g P W (S n) = (Py.Ok tt, st')).
        { rewrite Py_state_after_succ, Est. exact Eb. }
        destruct (Py_loop_body_Ok _ _ _ _ _ _ Eb) as (pipe & po & to & Hit).
        pose proof Hit as (time & _ & _ & _ & A1 & A2 & A3).
        unfold Py.completed. split; [exact ES |].
        rewrite A1, A2, A3. rewrite !length_app. simpl.
        split; [lia |]. split; [lia |]. split; [lia |].
        intros i Hi. destruct (Nat.eq_dec i n) as [-> | Hne].
        { exists st, st', pipe, po, to.
          split; [exact Est |]. split; [exact ES |]. split; [exact Hit |].
          split; [| split].
          - rewrite <- L1. apply nth_error_snoc_new.
          - rewrite <- L2. apply nth_error_snoc_new.
          - rewrite <- L3. apply nth_error_snoc_new. }
        { destruct (Hent i ltac:(lia))
            as (sti & sti' & pi & poi & toi & E1 & E2 & Hi' & N1 & N2 & N3).
          exists sti, sti', pi, poi, toi.
          split; [exact E1 |]. split; [exact E2 |]. split; [exact Hi' |].
          rewrite !nth_error_snoc_old by lia. repeat split; assumption. }
      * right. exists n, st, e, st'.
        split; [lia |]. split; [repeat split; assumption |].
        split; [exact Eb |]. split.
        { rewrite Py_state_after_succ, Est. exact Eb. }
        exact (Py_loop_body_Raise _ _ _ _ _ _ Eb).
    + right. exists k, stk, e, st.
      split; [lia |]. split; [exact Hc |]. split; [exact Hb |]. split.
      * rewrite Py_state_after_succ, Hn. reflexivity.
      * exact Hs.
Qed.

(** C5.  The [for] statement on Python numbers, for every configuration,
    every pair of objects and every C library; [n] is the number of indices
    of [range(steps)], which is [steps] when [steps >= 0].  Either
    - all [n] iterations return: the loop ends normally, each of the three
      series has [n] entries and, for every [i < n], iteration [i] started
      from the state the first [i] iterations left, computed [time = dt*i],
      called the panel update, then the fluid update with the panel update's
      result, and appended the three temperatures, which are entry [i] of the
      series; or
    - some iteration [k < n] is the first to raise: the iterations before it
      returned as described, the exception ends the loop, and each series
      keeps the [k] entries it had. *)
Theorem main_loop_iterations
    (pf : Py.Platform) (g : Py.Config.t) (P : Py.SolarPanel.t) (W : Py.Fluid.t) :
  (0 <= Py.Config.steps g -> Z.of_nat (Z.to_nat (Py.Config.steps g)) = Py.Config.steps g)%Z
  /\ ((exists final,
         Py.main_loop pf g P W = (Py.Ok tt, final)
         /\ Py.completed pf g P W (Z.to_nat (Py.Config.steps g)) final)
      \/ (exists (k : nat) stk e st,
            (k < Z.to_nat (Py.Config.steps g))%nat
            /\ Py.completed pf g P W k stk
            /\ Py.loop_body pf g (Z.of_nat k) stk = (Py.Raise e, st)
            /\ Py.main_loop pf g P W = (Py.Raise e, st)
            /\ Py.same_series stk st
            /\ length (Py.pipe_temps st) = k
            /\ length (Py.panel_outlet_temps st) = k
            /\ length (Py.tank_outlet_temps st) = k)).
Proof.
  split; [intros H; apply Z2Nat.id; exact H |].
  rewrite Py_main_loop_state_after.
  destruct (Py_run_prefix pf g P W (Z.to_nat (Py.Config.steps g)))
    as [(st & Hst) | (k & stk & e & st & Hk & Hc & Hb & Hn & Hs)].
  - left. exists st. split; [apply Hst | exact Hst].
  - right. exists k, stk, e, st.
    destruct Hc as (Ec & L1 & L2 & L3 & Hent).
    destruct Hs as (S1 & S2 & S3).
    repeat split; try assumption; congruence.
Qed.

(** ** The radiation model *)

(** An upper bound of [PI] sharp enough to separate it from the doubles next
    to it, from the series of [2 * atan (1/3) + atan (1/7)]. *)
Lemma PI_4_upper : PI / 4 < 7074237752028441 / 2 ^ 53.
Proof.
  apply Rle_lt_trans with (r2 := sum_f_R0 (tg_alt PI_2_3_7_tg) (2 * 8)).
  - apply PI_2_3_7_ineq.
  - unfold PI_2_3_7_tg, tg_alt, Ratan_seq.
    cbn [sum_f_R0 Nat.mul Nat.add pow INR]. lra.
Qed.

(** The argument at [time = 21600] lies in [(0, PI)]. *)
Lemma sine_positive_at_quarter_day : 0 < sin (Py.to_R Py.quarter_day).
Proof.
  unfold Py.to_R, Py.quarter_day.
  cbn [powerRZ]. change (Pos.to_nat 52) with 52%nat.
  pose proof PI2_3_2 as Hl.
  apply sin_gt_0; cbn [pow] in *; lra.
Qed.

(** The argument at [time = 43200] lies just above [PI]. *)
Lemma sine_negative_at_half_day : sin (Py.to_R Py.half_day) < 0.
Proof.
  unfold Py.to_R, Py.half_day.
  cbn [powerRZ]. change (Pos.to_nat 51) with 51%nat.
  pose proof PI_4_upper as Hu. pose proof PI2_3_2 as Hl.
  apply sin_lt_0; cbn [pow] in *; lra.
Qed.

(** The argument at [time = 86400] lies just above [2 * PI]. *)
Lemma sine_positive_at_full_day : 0 < sin (Py.to_R Py.full_day).
Proof.
  unfold Py.to_R, Py.full_day.
  cbn [powerRZ]. change (Pos.to_nat 50) with 50%nat.
  pose proof PI_4_upper as Hu. pose proof PI2_3_2 as Hl.
  set (v := 1 * (7074237752028441 * / 2 ^ 50)).
  assert (Hv : 2 * PI < v < 3 * PI).
  { subst v. cbn [pow] in *. lra. }
  replace v with ((v - 2 * PI) + 2 * INR 1 * PI) by (simpl; ring).
  rewrite sin_period. apply sin_gt_0; lra.
Qed.


(** ** The objects of the examples *)

Lemma default_objects :
  Py.SolarPanel.default Py.libm = Py.Ok Py.default_Panel
  /\ Py.Fluid.default Py.default_Panel = Py.Ok Py.default_Water.
Proof. split; vm_compute; reflexivity. Qed.

Lemma Panel_with_init (T emmi panel_area C : Py.num) :
  Py.SolarPanel.init Py.libm T (Py.Float Py.SolarPanel.lit_0_5) emmi (Py.Int 5)
    (Py.Float Py.SolarPanel.lit_0_025) panel_area
    (Py.Float Py.SolarPanel.lit_0_06) C
  = Py.Ok (Py.Panel_with T emmi panel_area C).
Proof. vm_compute. reflexivity. Qed.

(** ** Where the panel update leaves the closed form *)


(** ** Where the fluid update raises *)


(** ** The day boundaries with the correctly rounded sine *)


(** At the other three boundaries the correctly rounded sine gives what the
    specification asks for. *)
Lemma get_solar_rad_other_boundaries :
  Py.get_solar_rad Py.libm (Py.Int 1000) (Py.Int 0) true = Py.Ok (Py.Int 0)
  /\ Py.get_solar_rad Py.libm (Py.Int 1000) (Py.Int 21600) true
     = Py.Ok (Py.Float (S754_finite false 8796093022208000 (-43)))
  /\ Py.val (Py.Float (S754_finite false 8796093022208000 (-43))) = 1000
  /\ Py.get_solar_rad Py.libm (Py.Int 1000) (Py.Int 43200) true = Py.Ok (Py.Int 0).
Proof.
  split; [vm_compute; reflexivity |].
  split; [vm_compute; reflexivity |].
  split; [| vm_compute; reflexivity].
  unfold Py.val, Py.to_R. simpl. lra.
Qed.

(** ** Where the loop stops early *)

(** [SolarPanel(emmi=0, C=1e-77)] with [steps = 3]: both divisors are
    non-zero, two iterations return, and in the third [(Kelvin(self.T))**4]
    raises [OverflowError]; each series has two entries. *)
Lemma main_loop_stops_at_iteration_2 :
  exists st,
    Py.main_loop Py.libm
      (Py.Config.mk false (Py.Int 1) 3 (Py.Int 25) (Py.Int 1000)
         (Py.Float Py.Config.lit_sigma))
      (Py.Panel_with (Py.Int 25) (Py.Int 0) (Py.Int 1) (Py.Float Py.lit_1e_77))
      Py.default_Water
    = (Py.Raise Py.OverflowError, st)
    /\ Py.pipe_temps st
       = [Py.Float (S754_finite false 8310650745006867 203);
          Py.Float (S754_finite false 8310650745006867 204)]
    /\ length (Py.panel_outlet_temps st) = 2%nat
    /\ length (Py.tank_outlet_temps st) = 2%nat.
Proof.
  eexists. split; [vm_compute; reflexivity |].
  repeat split.
Qed.

(** ** Where the constructor of [Fluid] leaves the real product *)


(** ** Convex combinations *)

Lemma weighted_mean_between (a b m M : R) :
  0 <= m -> 0 <= M -> 0 < m + M ->
  Rmin a b <= (m * b + M * a) / (m + M) <= Rmax a b.
Proof.
  intros Hm HM Hs.
  assert (Hlo : Rmin a b <= a /\ Rmin a b <= b)
    by (split; [apply Rmin_l | apply Rmin_r]).
  assert (Hhi : a <= Rmax a b /\ b <= Rmax a b)
    by (split; [apply Rmax_l | apply Rmax_r]).
  destruct Hlo as [Hla Hlb]. destruct Hhi as [Hha Hhb].
  set (lo := Rmin a b) in *. set (hi := Rmax a b) in *.
  split.
  - apply Rmult_le_reg_r with (r := m + M); [exact Hs |].
    unfold Rdiv. rewrite Rmult_assoc, Rinv_l by lra. nra.
  - apply Rmult_le_reg_r with (r := m + M); [exact Hs |].
    unfold Rdiv. rewrite Rmult_assoc, Rinv_l by lra. nra.
Qed.

Lemma approach_between (pipe tank e : R) :
  0 <= e <= 1 ->
  Rmin pipe tank <= pipe + (tank - pipe) * e <= Rmax pipe tank.
Proof.
  intros [He0 He1].
  unfold Rmin, Rmax. destruct (Rle_dec pipe tank) as [H | H]; split; nra.
Qed.

(** *** Mixing into the tank *)




(** *** Heat exchange along the pipe *)




(** * The formulas on real numbers: what a run touches *)

(** ** Division *)

Lemma py_div_ok (x y : R) : y <> 0 -> py_div x y = Ok (x / y).
Proof.
  intros Hy. unfold py_div.
  destruct (Req_dec_T y 0) as [E | _]; [contradiction | reflexivity].
Qed.

Lemma py_div_zero (x y : R) : y = 0 -> py_div x y = Raise ZeroDivisionError.
Proof.
  intros Hy. unfold py_div.
  destruct (Req_dec_T y 0) as [_ | N]; [reflexivity | contradiction].
Qed.

(** ** The panel update *)

Lemma SolarPanel_UpdateTemp_ok (g : Config.t) (time : R) (p : SolarPanel.t) :
  panel_divisor p <> 0 ->
  SolarPanel.UpdateTemp g time p
  = (Ok (SolarPanel.T p + panel_available_heat g time p / panel_divisor p),
     SolarPanel.set_T p
       (SolarPanel.T p + panel_available_heat g time p / panel_divisor p)).
Proof.
  intros Hd. unfold SolarPanel.UpdateTemp.
  change (SolarPanel.C p * (SolarPanel.panel_thickness p * SolarPanel.panel_area p * 7800))
    with (panel_divisor p).
  rewrite (py_div_ok _ _ Hd). reflexivity.
Qed.

Lemma SolarPanel_UpdateTemp_raise (g : Config.t) (time : R) (p : SolarPanel.t) :
  panel_divisor p = 0 ->
  SolarPanel.UpdateTemp g time p = (Raise ZeroDivisionError, p).
Proof.
  intros Hd. unfold SolarPanel.UpdateTemp.
  change (SolarPanel.C p * (SolarPanel.panel_thickness p * SolarPanel.panel_area p * 7800))
    with (panel_divisor p).
  rewrite (py_div_zero _ _ Hd). reflexivity.
Qed.

(** ** The fluid update *)

Lemma Fluid_UpdateTemp_ok (g : Config.t) (fl : Fluid.t) (pipe : R) :
  fluid_m g fl + fluid_M fl <> 0 ->
  Fluid.UpdateTemp g fl pipe
  = (Ok (panel_out_new fl pipe, tank_out_new g fl pipe),
     Fluid.set_T_tank_out
       (Fluid.set_T_panel_out fl (panel_out_new fl pipe))
       (tank_out_new g fl pipe)).
Proof.
  intros Hd. unfold Fluid.UpdateTemp. cbn [Fluid.set_T_panel_out Fluid.rho
    Fluid.pipe_area Fluid.velocity Fluid.tank_volume Fluid.T_panel_out
    Fluid.T_tank_out].
  change (Fluid.rho fl * Fluid.pipe_area fl * Fluid.velocity fl * Config.dt g)
    with (fluid_m g fl).
  change (Fluid.tank_volume fl * Fluid.rho fl) with (fluid_M fl).
  rewrite (py_div_ok _ _ Hd). reflexivity.
Qed.

Lemma Fluid_UpdateTemp_raise (g : Config.t) (fl : Fluid.t) (pipe : R) :
  fluid_m g fl + fluid_M fl = 0 ->
  Fluid.UpdateTemp g fl pipe
  = (Raise ZeroDivisionError, Fluid.set_T_panel_out fl (panel_out_new fl pipe)).
Proof.
  intros Hd. unfold Fluid.UpdateTemp. cbn [Fluid.set_T_panel_out Fluid.rho
    Fluid.pipe_area Fluid.velocity Fluid.tank_volume Fluid.T_panel_out
    Fluid.T_tank_out].
  change (Fluid.rho fl * Fluid.pipe_area fl * Fluid.velocity fl * Config.dt g)
    with (fluid_m g fl).
  change (Fluid.tank_volume fl * Fluid.rho fl) with (fluid_M fl).
  rewrite (py_div_zero _ _ Hd). reflexivity.
Qed.


(** ** The loop *)

Lemma for_in_app (body : Z -> MainState -> result unit * MainState)
    (l1 l2 : list Z) (st : MainState) :
  for_in body (l1 ++ l2) st
  = match for_in body l1 st with
    | (Ok _, st') => for_in body l2 st'
    | (Raise e, st') => (Raise e, st')
    end.
Proof.
  revert st. induction l1 as [| i l1 IH]; intros st; simpl.
  - reflexivity.
  - destruct (body i st) as [[u | e] st'].
    + apply IH.
    + reflexivity.
Qed.

Lemma state_after_succ (g : Config.t) (P : SolarPanel.t) (W : Fluid.t) (n : nat) :
  state_after g P W (S n)
  = match state_after g P W n with
    | (Ok _, st) => loop_body g (Z.of_nat n) st
    | (Raise e, st) => (Raise e, st)
    end.
Proof.
  unfold state_after. rewrite range_succ, for_in_app.
  destruct (for_in (loop_body g) (range (Z.of_nat n)) (initial P W)) as [[u | e] st].
  - simpl. destruct (loop_body g (Z.of_nat n) st) as [[[] | e] st']; reflexivity.
  - reflexivity.
Qed.


(** *** A run of zero steps *)

(** C8.  For every configuration with [steps = 0] the loop body is never
    entered: the run ends normally with three empty series (and an empty time
    axis), and the panel temperature, the panel-outlet temperature and the
    tank-outlet temperature are the initial ones; no object is touched. *)
Theorem main_loop_zero_steps
    (g : Config.t) (P : SolarPanel.t) (W : Fluid.t) :
  Config.steps g = 0%Z ->
  exists final,
    main_loop g P W = (Ok tt, final)
    /\ pipe_temps final = []
    /\ panel_outlet_temps final = []
    /\ tank_outlet_temps final = []
    /\ time_array g = []
    /\ Panel final = P
    /\ Water final = W
    /\ SolarPanel.T (Panel final) = SolarPanel.T P
    /\ Fluid.T_panel_out (Water final) = Fluid.T_panel_out W
    /\ Fluid.T_tank_out (Water final) = Fluid.T_tank_out W.
Proof.
  intros H. exists (initial P W).
  unfold main_loop, time_array. rewrite H.
  repeat split.
Qed.

(** The default objects with [steps = 0]. *)
Lemma main_loop_zero_steps_witness :
  exists final,
    main_loop (Config.mk false 1 0 25 1000 5.67e-8) default_Panel default_Water
    = (Ok tt, final)
    /\ pipe_temps final = []
    /\ panel_outlet_temps final = []
    /\ tank_outlet_temps final = []
    /\ SolarPanel.T (Panel final) = 25
    /\ Fluid.T_panel_out (Water final) = 25
    /\ Fluid.T_tank_out (Water final) = 25.
Proof.
  destruct (main_loop_zero_steps (Config.mk false 1 0 25 1000 5.67e-8)
              default_Panel default_Water eq_refl)
    as (final & E & L1 & L2 & L3 & _ & EP & EW & _).
  exists final. rewrite EP, EW.
  repeat split; assumption.
Defined.

(** ** The panel along a run *)

(** The panel that an iteration leaves is the one its panel update leaves,
    whether or not the fluid update raises afterwards. *)
Lemma loop_body_Panel (g : Config.t) (i : Z) (st : MainState) :
  Panel (snd (loop_body g i st))
  = snd (SolarPanel.UpdateTemp g (Config.dt g * IZR i) (Panel st)).
Proof.
  unfold loop_body.
  destruct (SolarPanel.UpdateTemp g (Config.dt g * IZR i) (Panel st))
    as [[pipe | e] P'].
  - destruct (Fluid.UpdateTemp g (Water st) pipe) as [[[po to] | e] W']; reflexivity.
  - reflexivity.
Qed.

(** Only [T] of the panel ever changes. *)
Lemma state_after_Panel (g : Config.t) (P : SolarPanel.t) (W : Fluid.t) (n : nat) :
  exists T_n, Panel (snd (state_after g P W n)) = SolarPanel.set_T P T_n.
Proof.
  induction n as [| n [T_n IH]].
  - exists (SolarPanel.T P). destruct P; reflexivity.
  - rewrite state_after_succ.
    destruct (state_after g P W n) as [[u | e] st]; simpl in IH.
    + rewrite loop_body_Panel, IH.
      destruct (Req_dec_T (panel_divisor (SolarPanel.set_T P T_n)) 0) as [E | N].
      * rewrite (SolarPanel_UpdateTemp_raise g _ _ E). exists T_n. reflexivity.
      * rewrite (SolarPanel_UpdateTemp_ok g _ _ N). eexists. reflexivity.
    + exists T_n. exact IH.
Qed.


(** ** What a run leaves alone *)

Lemma loop_body_Water (g : Config.t) (i : Z) (st : MainState) :
  exists po to,
    Water (snd (loop_body g i st))
    = Fluid.set_T_tank_out (Fluid.set_T_panel_out (Water st) po) to.
Proof.
  unfold loop_body.
  destruct (Req_dec_T (panel_divisor (Panel st)) 0) as [Ep | Np].
  - rewrite (SolarPanel_UpdateTemp_raise g _ _ Ep). simpl.
    exists (Fluid.T_panel_out (Water st)), (Fluid.T_tank_out (Water st)).
    destruct (Water st); reflexivity.
  - rewrite (SolarPanel_UpdateTemp_ok g _ _ Np).
    destruct (Req_dec_T (fluid_m g (Water st) + fluid_M (Water st)) 0) as [Ew | Nw].
    + rewrite (Fluid_UpdateTemp_raise g _ _ Ew). simpl.
      eexists. exists (Fluid.T_tank_out (Water st)). reflexivity.
    + rewrite (Fluid_UpdateTemp_ok g _ _ Nw). simpl.
      do 2 eexists. reflexivity.
Qed.

(** Only the two temperatures of the fluid ever change. *)
Lemma state_after_Water (g : Config.t) (P : SolarPanel.t) (W : Fluid.t) (n : nat) :
  exists po to,
    Water (snd (state_after g P W n))
    = Fluid.set_T_tank_out (Fluid.set_T_panel_out W po) to.
Proof.
  induction n as [| n (po & to & IH)].
  - exists (Fluid.T_panel_out W), (Fluid.T_tank_out W). destruct W; reflexivity.
  - rewrite state_after_succ.
    destruct (state_after g P W n) as [[u | e] st]; simpl in IH.
    + destruct (loop_body_Water g (Z.of_nat n) st) as (po' & to' & E).
      rewrite E, IH. do 2 eexists. reflexivity.
    + exists po, to. exact IH.
Qed.

(** X11.  However far a run gets and however it ends, the only attributes it
    changes are [Panel.T], [Water.T_panel_out] and [Water.T_tank_out]:
    putting the three initial temperatures back gives the initial objects. *)
Theorem run_changes_only_the_three_temperatures
    (g : Config.t) (P : SolarPanel.t) (W : Fluid.t) (n : nat) :
  SolarPanel.set_T (Panel (snd (state_after g P W n))) (SolarPanel.T P) = P
  /\ Fluid.set_T_tank_out
       (Fluid.set_T_panel_out (Water (snd (state_after g P W n)))
          (Fluid.T_panel_out W))
       (Fluid.T_tank_out W)
     = W.
Proof.
  destruct (state_after_Panel g P W n) as [T_n EP].
  destruct (state_after_Water g P W n) as (po & to & EW).
  rewrite EP, EW. split; [destruct P | destruct W]; reflexivity.
Qed.


(** ** The initial panel-outlet temperature is never read *)

Lemma Fluid_UpdateTemp_overwrites_T_panel_out
    (g : Config.t) (fl : Fluid.t) (v pipe : R) :
  Fluid.UpdateTemp g (Fluid.set_T_panel_out fl v) pipe = Fluid.UpdateTemp g fl pipe.
Proof. reflexivity. Qed.

Lemma loop_body_agree_but_T_panel_out
    (g : Config.t) (i : Z) (st1 st2 : MainState) :
  agree_but_T_panel_out st1 st2 ->
  fst (loop_body g i st1) = fst (loop_body g i st2)
  /\ agree_but_T_panel_out (snd (loop_body g i st1)) (snd (loop_body g i st2)).
Proof.
  intros (EP & (v & EW) & L1 & L2 & L3).
  unfold loop_body. rewrite EP, EW, L1, L2, L3.
  destruct (SolarPanel.UpdateTemp g (Config.dt g * IZR i) (Panel st2))
    as [[pipe | e] P'].
  - rewrite Fluid_UpdateTemp_overwrites_T_panel_out.
    destruct (Fluid.UpdateTemp g (Water st2) pipe) as [[[po to] | e] W'].
    + simpl. split; [reflexivity |]. repeat split.
      exists (Fluid.T_panel_out W'). destruct W'; reflexivity.
    + simpl. split; [reflexivity |]. repeat split.
      exists (Fluid.T_panel_out W'). destruct W'; reflexivity.
  - simpl. split; [reflexivity |]. repeat split.
    exists v. reflexivity.
Qed.

(** X14.  The old [T_panel_out] is overwritten before it is read, so the
    constructor argument [T_panel_out] has no effect on a run: with any other
    initial value the outcome, the panel, the three series and the tank-outlet
    temperature are the same after every iteration. *)
Theorem run_ignores_initial_T_panel_out
    (g : Config.t) (P : SolarPanel.t) (W : Fluid.t) (v : R) (n : nat) :
  fst (state_after g P (Fluid.set_T_panel_out W v) n) = fst (state_after g P W n)
  /\ agree_but_T_panel_out (snd (state_after g P (Fluid.set_T_panel_out W v) n))
                           (snd (state_after g P W n))
  /\ Fluid.T_tank_out (Water (snd (state_after g P (Fluid.set_T_panel_out W v) n)))
     = Fluid.T_tank_out (Water (snd (state_after g P W n))).
Proof.
  assert (H : fst (state_after g P (Fluid.set_T_panel_out W v) n)
              = fst (state_after g P W n)
              /\ agree_but_T_panel_out
                   (snd (state_after g P (Fluid.set_T_panel_out W v) n))
                   (snd (state_after g P W n))).
  { induction n as [| n [IHf IHa]].
    - split; [reflexivity |]. repeat split. exists v. reflexivity.
    - rewrite !state_after_succ.
      destruct (state_after g P (Fluid.set_T_panel_out W v) n) as [[u1 | e1] st1];
        destruct (state_after g P W n) as [[u2 | e2] st2];
        simpl in IHf, IHa; try discriminate IHf.
      + apply loop_body_agree_but_T_panel_out. exact IHa.
      + simpl. split; assumption. }
  destruct H as [Hf Ha]. split; [exact Hf |]. split; [exact Ha |].
  destruct Ha as (_ & (v' & EW) & _). rewrite EW. reflexivity.
Qed.

Lemma run_ignores_initial_T_panel_out_witness :
  pipe_temps (snd (state_after Config.default default_Panel
                     (Fluid.set_T_panel_out default_Water 99) 4))
  = pipe_temps (snd (state_after Config.default default_Panel default_Water 4)).
Proof.
  destruct (run_ignores_initial_T_panel_out Config.default default_Panel
              default_Water 99 4) as (_ & (_ & _ & _ & _ & H) & _).
  exact H.
Defined.

(** * Further properties of the program *)

(** ** What a run leaves alone *)

Lemma Py_SolarPanel_UpdateTemp_frame pf g time (p : Py.SolarPanel.t) :
  exists v, snd (Py.SolarPanel.UpdateTemp pf g time p) = Py.SolarPanel.set_T p v.
Proof.
  unfold Py.SolarPanel.UpdateTemp.
  destruct (Py.SolarPanel.new_T pf g time p) as [v | e]; simpl.
  - exists v. reflexivity.
  - exists (Py.SolarPanel.T p). destruct p; reflexivity.
Qed.

Lemma Py_Fluid_UpdateTemp_frame pf g (fl : Py.Fluid.t) pipe :
  exists po to,
    snd (Py.Fluid.UpdateTemp pf g fl pipe)
    = Py.Fluid.set_T_tank_out (Py.Fluid.set_T_panel_out fl po) to.
Proof.
  unfold Py.Fluid.UpdateTemp.
  destruct (Py.Fluid.new_T_panel_out pf fl pipe) as [po | e]; simpl.
  - destruct (Py.Fluid.new_T_tank_out g (Py.Fluid.set_T_panel_out fl po))
      as [to | e]; simpl.
    + exists po, to. reflexivity.
    + exists po, (Py.Fluid.T_tank_out fl). reflexivity.
  - exists (Py.Fluid.T_panel_out fl), (Py.Fluid.T_tank_out fl).
    destruct fl; reflexivity.
Qed.

Lemma Py_loop_body_frame pf g (i : Z) (st : Py.MainState) :
  (exists v,
     Py.Panel (snd (Py.loop_body pf g i st)) = Py.SolarPanel.set_T (Py.Panel st) v)
  /\ (exists po to,
        Py.Water (snd (Py.loop_body pf g i st))
        = Py.Fluid.set_T_tank_out (Py.Fluid.set_T_panel_out (Py.Water st) po) to).
Proof.
  assert (HP : exists v, Py.Panel st = Py.SolarPanel.set_T (Py.Panel st) v).
  { exists (Py.SolarPanel.T (Py.Panel st)). destruct (Py.Panel st); reflexivity. }
  assert (HW : exists po to,
             Py.Water st
             = Py.Fluid.set_T_tank_out (Py.Fluid.set_T_panel_out (Py.Water st) po) to).
  { exists (Py.Fluid.T_panel_out (Py.Water st)), (Py.Fluid.T_tank_out (Py.Water st)).
    destruct (Py.Water st); reflexivity. }
  unfold Py.loop_body.
  destruct (Py.mul (Py.Config.dt g) (Py.Int i)) as [time | e]; simpl;
    [| split; assumption].
  pose proof (Py_SolarPanel_UpdateTemp_frame pf g time (Py.Panel st)) as FP.
  destruct (Py.SolarPanel.UpdateTemp pf g time (Py.Panel st)) as [[pipe | e] P'];
    simpl in FP |- *; [| split; assumption].
  pose proof (Py_Fluid_UpdateTemp_frame pf g (Py.Water st) pipe) as FW.
  destruct (Py.Fluid.UpdateTemp pf g (Py.Water st) pipe) as [[[po to] | e] W'];
    simpl in FW |- *; split; assumption.
Qed.

(** X18.  On Python numbers too, however far a run gets and however it ends
    (normally or with any exception), the only attributes it changes are
    [Panel.T], [Water.T_panel_out] and [Water.T_tank_out]. *)
Theorem Py_run_changes_only_the_three_temperatures
    (pf : Py.Platform) (g : Py.Config.t) (P : Py.SolarPanel.t) (W : Py.Fluid.t)
    (n : nat) :
  Py.SolarPanel.set_T (Py.Panel (snd (Py.state_after pf g P W n)))
    (Py.SolarPanel.T P) = P
  /\ Py.Fluid.set_T_tank_out
       (Py.Fluid.set_T_panel_out (Py.Water (snd (Py.state_after pf g P W n)))
          (Py.Fluid.T_panel_out W))
       (Py.Fluid.T_tank_out W)
     = W.
Proof.
  assert (H : (exists v,
                 Py.Panel (snd (Py.state_after pf g P W n)) = Py.SolarPanel.set_T P v)
              /\ (exists po to,
                    Py.Water (snd (Py.state_after pf g P W n))
                    = Py.Fluid.set_T_tank_out (Py.Fluid.set_T_panel_out W po) to)).
  { induction n as [| n [[v IHP] (po & to & IHW)]].
    - split.
      + exists (Py.SolarPanel.T P). destruct P; reflexivity.
      + exists (Py.Fluid.T_panel_out W), (Py.Fluid.T_tank_out W).
        destruct W; reflexivity.
    - rewrite Py_state_after_succ.
      destruct (Py.state_after pf g P W n) as [[u | e] st]; simpl in IHP, IHW.
      + destruct (Py_loop_body_frame pf g (Z.of_nat n) st)
          as [[v' EP] (po' & to' & EW)].
        rewrite EP, EW, IHP, IHW. split.
        * exists v'. reflexivity.
        * exists po', to'. reflexivity.
      + simpl. split; [exists v; exact IHP | exists po, to; exact IHW]. }
  destruct H as [[v EP] (po & to & EW)].
  rewrite EP, EW. split; [destruct P | destruct W]; reflexivity.
Qed.

(** ** The initial panel-outlet temperature is never read *)

Lemma Py_Fluid_UpdateTemp_ignores_T_panel_out pf g (fl : Py.Fluid.t) (v pipe : Py.num) :
  fst (Py.Fluid.UpdateTemp pf g (Py.Fluid.set_T_panel_out fl v) pipe)
  = fst (Py.Fluid.UpdateTemp pf g fl pipe)
  /\ exists v',
       snd (Py.Fluid.UpdateTemp pf g (Py.Fluid.set_T_panel_out fl v) pipe)
       = Py.Fluid.set_T_panel_out (snd (Py.Fluid.UpdateTemp pf g fl pipe)) v'.
Proof.
  unfold Py.Fluid.UpdateTemp.
  change (Py.Fluid.new_T_panel_out pf (Py.Fluid.set_T_panel_out fl v) pipe)
    with (Py.Fluid.new_T_panel_out pf fl pipe).
  destruct (Py.Fluid.new_T_panel_out pf fl pipe) as [po | e]; simpl.
  - change (Py.Fluid.set_T_panel_out (Py.Fluid.set_T_panel_out fl v) po)
      with (Py.Fluid.set_T_panel_out fl po).
    destruct (Py.Fluid.new_T_tank_out g (Py.Fluid.set_T_panel_out fl po))
      as [to | e]; simpl; (split; [reflexivity |]).
    + exists po. reflexivity.
    + exists po. reflexivity.
  - split; [reflexivity |]. exists v. reflexivity.
Qed.

Lemma Py_loop_body_agree_but_T_panel_out pf g (i : Z) (st1 st2 : Py.MainState) :
  Py.agree_but_T_panel_out st1 st2 ->
  fst (Py.loop_body pf g i st1) = fst (Py.loop_body pf g i st2)
  /\ Py.agree_but_T_panel_out (snd (Py.loop_body pf g i st1))
                              (snd (Py.loop_body pf g i st2)).
Proof.
  intros (EP & (v & EW) & L1 & L2 & L3).
  unfold Py.loop_body. rewrite EP, EW, L1, L2, L3.
  destruct (Py.mul (Py.Config.dt g) (Py.Int i)) as [time | e]; simpl.
  - destruct (Py.SolarPanel.UpdateTemp pf g time (Py.Panel st2))
      as [[pipe | e] P'].
    + destruct (Py_Fluid_UpdateTemp_ignores_T_panel_out pf g (Py.Water st2) v pipe)
        as [Ef (v' & Es)].
      destruct (Py.Fluid.UpdateTemp pf g (Py.Fluid.set_T_panel_out (Py.Water st2) v) pipe)
        as [[[po1 to1] | e1] W1];
        destruct (Py.Fluid.UpdateTemp pf g (Py.Water st2) pipe)
          as [[[po2 to2] | e2] W2];
        simpl in Ef, Es; try discriminate Ef.
      * injection Ef as -> ->. simpl. split; [reflexivity |].
        repeat split. exists v'. exact Es.
      * injection Ef as ->. simpl. split; [reflexivity |].
        repeat split. exists v'. exact Es.
    + simpl. split; [reflexivity |]. repeat split. exists v. reflexivity.
  - split; [reflexivity |].
    exact (conj EP (conj (ex_intro _ v EW) (conj L1 (conj L2 L3)))).
Qed.

(** X19.  On Python numbers too the constructor argument [T_panel_out] has no
    effect on a run: with any other initial value the outcome (the same
    exception at the same iteration, if any), the panel, the three series and
    the tank-outlet temperature are the same after every iteration. *)
Theorem Py_run_ignores_initial_T_panel_out
    (pf : Py.Platform) (g : Py.Config.t) (P : Py.SolarPanel.t) (W : Py.Fluid.t)
    (v : Py.num) (n : nat) :
  fst (Py.state_after pf g P (Py.Fluid.set_T_panel_out W v) n)
  = fst (Py.state_after pf g P W n)
  /\ Py.agree_but_T_panel_out
       (snd (Py.state_after pf g P (Py.Fluid.set_T_panel_out W v) n))
       (snd (Py.state_after pf g P W n))
  /\ Py.Fluid.T_tank_out
       (Py.Water (snd (Py.state_after pf g P (Py.Fluid.set_T_panel_out W v) n)))
     = Py.Fluid.T_tank_out (Py.Water (snd (Py.state_after pf g P W n))).
Proof.
  assert (H : fst (Py.state_after pf g P (Py.Fluid.set_T_panel_out W v) n)
              = fst (Py.state_after pf g P W n)
              /\ Py.agree_but_T_panel_out
                   (snd (Py.state_after pf g P (Py.Fluid.set_T_panel_out W v) n))
                   (snd (Py.state_after pf g P W n))).
  { induction n as [| n [IHf IHa]].
    - split; [reflexivity |]. repeat split. exists v. reflexivity.
    - rewrite !Py_state_after_succ.
      destruct (Py.state_after pf g P (Py.Fluid.set_T_panel_out W v) n)
        as [[u1 | e1] st1];
        destruct (Py.state_after pf g P W n) as [[u2 | e2] st2];
        simpl in IHf, IHa; try discriminate IHf.
      + apply Py_loop_body_agree_but_T_panel_out. exact IHa.
      + simpl. split; assumption. }
  destruct H as [Hf Ha]. split; [exact Hf |]. split; [exact Ha |].
  destruct Ha as (_ & (v' & EW) & _). rewrite EW. reflexivity.
Qed.

(** ** A run of zero steps *)

(** X20.  On Python numbers, with [steps <= 0] the loop body is never
    entered: the run ends normally with three empty series and the two
    objects untouched, whatever the numbers are. *)
Theorem Py_main_loop_no_steps
    (pf : Py.Platform) (g : Py.Config.t) (P : Py.SolarPanel.t) (W : Py.Fluid.t) :
  (Py.Config.steps g <= 0)%Z ->
  Py.main_loop pf g P W = (Py.Ok tt, Py.initial P W)
  /\ Py.pipe_temps (snd (Py.main_loop pf g P W)) = []
  /\ Py.panel_outlet_temps (snd (Py.main_loop pf g P W)) = []
  /\ Py.tank_outlet_temps (snd (Py.main_loop pf g P W)) = []
  /\ Py.Panel (snd (Py.main_loop pf g P W)) = P
  /\ Py.Water (snd (Py.main_loop pf g P W)) = W.
Proof.
  intros H.
  assert (E : Py.main_loop pf g P W = (Py.Ok tt, Py.initial P W)).
  { unfold Py.main_loop, range.
    replace (Z.to_nat (Py.Config.steps g)) with 0%nat by lia. reflexivity. }
  rewrite E. repeat split.
Qed.

Lemma Py_main_loop_no_steps_witness :
  Py.main_loop Py.libm
    (Py.Config.mk false (Py.Int 1) 0 (Py.Int 25) (Py.Int 1000)
       (Py.Float Py.Config.lit_sigma))
    Py.default_Panel Py.default_Water
  = (Py.Ok tt, Py.initial Py.default_Panel Py.default_Water).
Proof.
  apply (Py_main_loop_no_steps Py.libm
           (Py.Config.mk false (Py.Int 1) 0 (Py.Int 25) (Py.Int 1000)
              (Py.Float Py.Config.lit_sigma))
           Py.default_Panel Py.default_Water).
  simpl. lia.
Defined.

(** ** The first iterations of the default run *)

(** X21.  With the default objects, the default configuration and the
    correctly rounded C library, the first two iterations return and append
    the pipe temperatures [25.002136752136753] and [25.00427347796622], the
    panel-outlet temperatures [25.001459043874824] and [25.002918075465047],
    and the tank-outlet temperatures [25.000000017904945] and
    [25.000000053714462]. *)
Theorem default_run_first_two_iterations :
  exists st,
    Py.state_after Py.libm Py.Config.default Py.default_Panel Py.default_Water 2
    = (Py.Ok tt, st)
    /\ Py.pipe_temps st
       = [Py.Float (S754_finite false 7037475860024329 (-48));
          Py.Float (S754_finite false 7038077294877415 (-48))]
    /\ Py.panel_outlet_temps st
       = [Py.Float (S754_finite false 7037285102107086 (-48));
          Py.Float (S754_finite false 7037695782989964 (-48))]
    /\ Py.tank_outlet_temps st
       = [Py.Float (S754_finite false 7036874422806194 (-48));
          Py.Float (S754_finite false 7036874432885677 (-48))].
Proof.
  eexists. split; [vm_compute; reflexivity |]. repeat split.
Qed.

(** ** The time is read in cycle mode only *)

(** X22.  With [cycle = False] the panel update does not depend on [time]:
    the same panel gives the same outcome and the same new panel at every
    time. *)
Theorem SolarPanel_UpdateTemp_ignores_time
    (pf : Py.Platform) (g : Py.Config.t) (t1 t2 : Py.num) (p : Py.SolarPanel.t) :
  Py.Config.cycle g = false ->
  Py.SolarPanel.UpdateTemp pf g t1 p = Py.SolarPanel.UpdateTemp pf g t2 p.
Proof.
  intros H.
  unfold Py.SolarPanel.UpdateTemp, Py.SolarPanel.new_T,
    Py.SolarPanel.panel_available_heat, Py.SolarPanel.radiation_in,
    Py.get_solar_rad.
  rewrite H. reflexivity.
Qed.

Lemma SolarPanel_UpdateTemp_ignores_time_witness :
  Py.SolarPanel.UpdateTemp Py.libm Py.Config.default (Py.Int 0) Py.default_Panel
  = Py.SolarPanel.UpdateTemp Py.libm Py.Config.default (Py.Int 43200) Py.default_Panel.
Proof.
  apply (SolarPanel_UpdateTemp_ignores_time Py.libm Py.Config.default
           (Py.Int 0) (Py.Int 43200) Py.default_Panel).
  reflexivity.
Defined.

(** ** The panel does not feel the fluid *)

Lemma Py_state_after_Ok_inv pf g P W (n : nat) (u : unit) (st' : Py.MainState) :
  Py.state_after pf g P W (S n) = (Py.Ok u, st') ->
  exists st,
    Py.state_after pf g P W n = (Py.Ok tt, st)
    /\ Py.loop_body pf g (Z.of_nat n) st = (Py.Ok u, st').
Proof.
  rewrite Py_state_after_succ.
  destruct (Py.state_after pf g P W n) as [[[] | e] st]; intros H.
  - exists st. split; [reflexivity | exact H].
  - discriminate H.
Qed.

(** X23.  The panel update reads nothing of the fluid: two runs from the
    same panel with different fluids that both complete [n] iterations have
    the same panel and the same pipe-temperature series. *)
Theorem panel_series_independent_of_fluid
    (pf : Py.Platform) (g : Py.Config.t) (P : Py.SolarPanel.t)
    (W1 W2 : Py.Fluid.t) (n : nat) (st1 st2 : Py.MainState) :
  Py.state_after pf g P W1 n = (Py.Ok tt, st1) ->
  Py.state_after pf g P W2 n = (Py.Ok tt, st2) ->
  Py.Panel st1 = Py.Panel st2 /\ Py.pipe_temps st1 = Py.pipe_temps st2.
Proof.
  revert st1 st2. induction n as [| n IH]; intros st1 st2 H1 H2.
  - injection H1 as <-. injection H2 as <-. split; reflexivity.
  - apply Py_state_after_Ok_inv in H1. destruct H1 as (s1 & E1 & B1).
    apply Py_state_after_Ok_inv in H2. destruct H2 as (s2 & E2 & B2).
    destruct (IH s1 s2 E1 E2) as [EP EL].
    destruct (Py_loop_body_Ok _ _ _ _ _ _ B1)
      as (pipe1 & po1 & to1 & time1 & T1 & U1 & _ & A1 & _).
    destruct (Py_loop_body_Ok _ _ _ _ _ _ B2)
      as (pipe2 & po2 & to2 & time2 & T2 & U2 & _ & A2 & _).
    rewrite T1 in T2. injection T2 as <-.
    rewrite EP, U2 in U1. injection U1 as <- E.
    split; [symmetry; exact E |].
    rewrite A1, A2, EL. reflexivity.
Qed.

Lemma panel_series_independent_of_fluid_witness :
  exists st1 st2,
    Py.state_after Py.libm Py.Config.default Py.default_Panel Py.default_Water 2
    = (Py.Ok tt, st1)
    /\ Py.state_after Py.libm Py.Config.default Py.default_Panel Py.halving_Water 2
       = (Py.Ok tt, st2)
    /\ Py.pipe_temps st1 = Py.pipe_temps st2.
Proof.
  eexists. eexists.
  split; [vm_compute; reflexivity |].
  split; [vm_compute; reflexivity |].
  apply (panel_series_independent_of_fluid Py.libm Py.Config.default
           Py.default_Panel Py.default_Water Py.halving_Water 2);
    vm_compute; reflexivity.
Defined.

(** ** The constructor of [SolarPanel] *)

(** X24.  [SolarPanel.__init__] stores its arguments and computes
    [pipe_area = (math.pi * pipe_dia**2) / 4], a [float]; it never raises
    [ZeroDivisionError], and raises when the square or an [int] conversion
    does.  With the correctly rounded C library [pipe_dia = 1e-200] gives
    [pipe_area = 0.0] (the square underflows) and [pipe_dia = 1e200] raises
    [OverflowError]. *)
Theorem SolarPanel_init_outcome
    (pf : Py.Platform)
    (T effi emmi pipe_len pipe_dia panel_area panel_thickness C : Py.num) :
  Py.SolarPanel.init pf T effi emmi pipe_len pipe_dia panel_area panel_thickness C
  <> Py.Raise Py.ZeroDivisionError
  /\ (forall p,
        Py.SolarPanel.init pf T effi emmi pipe_len pipe_dia panel_area
          panel_thickness C = Py.Ok p ->
        p = Py.SolarPanel.mk T effi pipe_len pipe_dia (Py.SolarPanel.pipe_area p)
              panel_area panel_thickness C emmi
        /\ Py.is_int (Py.SolarPanel.pipe_area p) = false
        /\ exists d2 a1,
             Py.pow pf pipe_dia 2 = Py.Ok d2
             /\ Py.mul (Py.Float Py.math_pi) d2 = Py.Ok a1
             /\ Py.truediv a1 (Py.Int 4) = Py.Ok (Py.SolarPanel.pipe_area p))
  /\ (exists p,
        Py.SolarPanel.init Py.libm T effi emmi pipe_len (Py.Float Py.lit_1e_200)
          panel_area panel_thickness C = Py.Ok p
        /\ Py.SolarPanel.pipe_area p = Py.Float (S754_zero false))
  /\ Py.SolarPanel.init Py.libm T effi emmi pipe_len (Py.Float Py.lit_1e200)
       panel_area panel_thickness C = Py.Raise Py.OverflowError.
Proof.
  split; [| split; [| split]].
  - unfold Py.SolarPanel.init.
    apply bind_not_ZeroDivisionError; [auto with zde | intros d2 _].
    apply bind_not_ZeroDivisionError; [auto with zde | intros a1 E1].
    apply bind_not_ZeroDivisionError; [| discriminate].
    assert (Ha : Py.is_int a1 = false).
    { apply (arith_Float _ _ _ _ _ E1). left. reflexivity. }
    intros H. apply (truediv_Float_ZeroDivisionError _ _ Ha) in H.
    destruct H as (b & Eb & Zb). vm_compute in Eb. injection Eb as <-.
    discriminate Zb.
  - intros p H. unfold Py.SolarPanel.init in H.
    apply bind_Ok in H. destruct H as (d2 & E2 & H).
    apply bind_Ok in H. destruct H as (a1 & E1 & H).
    apply bind_Ok in H. destruct H as (pa & Ea & H).
    injection H as <-. simpl. split; [reflexivity |]. split.
    + exact (truediv_Float _ _ _ Ea).
    + exists d2, a1. repeat split; assumption.
  - eexists. split; vm_compute; reflexivity.
  - vm_compute. reflexivity.
Qed.
